(** * AI Interviewer: the browser client

    A shallow embedding of the React client of the AI Interviewer: the
    interview context reducer (context/InterviewContext.js), the axios
    service layer (api/interviewService.js), the chat handlers
    (components/ChatInterface.js) and the editor handlers
    (components/CodingChallenge.js); around them the interview page
    (pages/Interview.js) with its job role selector, and the authentication
    context with the login page and the protected route.

    JavaScript values are modelled as the code uses them: a value that is
    either null/undefined or a string is an [option string], truthiness is
    written out, object literals are association lists of JSON values, and
    asynchronous handlers are computations in a small monad that threads the
    component state, logs every network request and carries thrown errors.

    What lies outside the page is an input of the model: the answers of the
    server (always a JSON object, or a failure), the token in local storage,
    the clock, [uuidv4()], [JSON.stringify] and the audio recorder. A handler
    runs to its end before the next one starts, and an effect is the function
    React runs after a render. Strings are sequences of bytes, the UTF-8
    encoding of the text.

    The server is not part of these sources. Where a property is about it,
    its session store, its stage controller and its agent loop are modelled
    from the specification, in modules of their own. *)

From Stdlib Require Import String Ascii ZArith List Bool Sorted.
From stdpp Require Import base tactics option list strings pretty gmap.

Open Scope Z_scope.

(** ** JavaScript values *)

Module Js.

(** Truthiness of a value that is null/undefined or a string. *)
Definition truthy (v : option string) : bool :=
  match v with
  | Some s => negb (String.eqb s "")
  | None => false
  end.

(** [a || b] on such values. *)
Definition or (a b : option string) : option string :=
  if truthy a then a else b.

(** A value interpolated in a template literal. *)
Definition show (v : option string) : string :=
  match v with
  | Some s => s
  | None => "undefined"
  end.

(** The bytes of a string are its UTF-8 encoding. The white space that
    [String.prototype.trim] removes is the WhiteSpace and LineTerminator of
    ECMAScript: TAB, LF, VT, FF, CR and SPACE (one byte each), U+00A0 (two
    bytes), and U+1680, U+2000 to U+200A, U+2028, U+2029, U+202F, U+205F,
    U+3000 and U+FEFF (three bytes each). *)
Definition space1 (c0 : ascii) : bool :=
  let a := nat_of_ascii c0 in
  (Nat.leb 9 a && Nat.leb a 13) || Nat.eqb a 32.

Definition space2 (c0 c1 : ascii) : bool :=
  Nat.eqb (nat_of_ascii c0) 194 && Nat.eqb (nat_of_ascii c1) 160.

Definition space3 (c0 c1 c2 : ascii) : bool :=
  let a := nat_of_ascii c0 in
  let b := nat_of_ascii c1 in
  let c := nat_of_ascii c2 in
  (Nat.eqb a 225 && Nat.eqb b 154 && Nat.eqb c 128)
  || (Nat.eqb a 226 && Nat.eqb b 128
      && ((Nat.leb 128 c && Nat.leb c 138) || Nat.eqb c 168 || Nat.eqb c 169
          || Nat.eqb c 175))
  || (Nat.eqb a 226 && Nat.eqb b 129 && Nat.eqb c 159)
  || (Nat.eqb a 227 && Nat.eqb b 128 && Nat.eqb c 128)
  || (Nat.eqb a 239 && Nat.eqb b 187 && Nat.eqb c 191).

(** [s] without the white space character it begins with, when it begins
    with one. *)
Definition behead (s : string) : option string :=
  match s with
  | String c0 r0 =>
      if space1 c0 then Some r0
      else match r0 with
           | String c1 r1 =>
               if space2 c0 c1 then Some r1
               else match r1 with
                    | String c2 r2 =>
                        if space3 c0 c1 c2 then Some r2 else None
                    | EmptyString => None
                    end
           | EmptyString => None
           end
  | EmptyString => None
  end.

Fixpoint trimStart (s : string) : string :=
  match s with
  | String c0 r0 =>
      if space1 c0 then trimStart r0
      else match r0 with
           | String c1 r1 =>
               if space2 c0 c1 then trimStart r1
               else match r1 with
                    | String c2 r2 =>
                        if space3 c0 c1 c2 then trimStart r2 else s
                    | EmptyString => s
                    end
           | EmptyString => s
           end
  | EmptyString => EmptyString
  end.

(** A string made of white space only (the empty string included). *)
Fixpoint whitespace_only (s : string) : bool :=
  match s with
  | String c0 r0 =>
      if space1 c0 then whitespace_only r0
      else match r0 with
           | String c1 r1 =>
               if space2 c0 c1 then whitespace_only r1
               else match r1 with
                    | String c2 r2 =>
                        space3 c0 c1 c2 && whitespace_only r2
                    | EmptyString => false
                    end
           | EmptyString => false
           end
  | EmptyString => true
  end.

(** The longest prefix that no white space follows to the end. *)
Fixpoint trimEnd (s : string) : string :=
  match s with
  | EmptyString => EmptyString
  | String c r => if whitespace_only s then EmptyString else String c (trimEnd r)
  end.

Definition trim (s : string) : string := trimEnd (trimStart s).

Definition startsWith (s p : string) : bool := String.prefix p s.


(** JSON values, as they appear in request bodies. *)
#[warnings="-register-all"]
Inductive Json :=
| JUndefined
| JNull
| JBool (b : bool)
| JNum (n : Z)
| JStr (s : string)
| JArr (l : list Json)
| JObj (fields : list (string * Json)).

(** A property holding null/undefined or a string. *)
Definition of_string (v : option string) : Json :=
  match v with
  | Some s => JStr s
  | None => JNull
  end.

(** A property read off an object that may lack it. *)
Definition of_prop (v : option string) : Json :=
  match v with
  | Some s => JStr s
  | None => JUndefined
  end.

End Js.

(** ** Data model *)

(** The structured challenge the server attaches to a response. *)
Record Challenge := {
  challenge_id : option string;
  id : option string;
  title : option string;
  starter_code : option string;
  language : option string;
}.

(** Job role configuration chosen before the interview. *)
Record JobRole := {
  role_name : option string;
  seniority_level : option string;
  required_skills : option (list string);
  description : option string;
}.

(** One entry of the chat transcript. *)
Module Msg.
Record t := {
  role : string;
  content : option string;
  tool_calls : option Js.Json;
  audioUrl : option string;
  loading : bool;
  isHint : bool;
  error : bool;
}.

Definition user (text : string) : t :=
  {| role := "user"; content := Some text; tool_calls := None;
     audioUrl := None; loading := false; isHint := false; error := false |}.

Definition assistant (text : option string) (calls : option Js.Json)
    (audio : option string) : t :=
  {| role := "assistant"; content := text; tool_calls := calls;
     audioUrl := audio; loading := false; isHint := false; error := false |}.
End Msg.

(** The interview context state (InterviewContext.js, initialState). *)
Record State := {
  userId : option string;
  sessionId : option string;
  messages : list Msg.t;
  loading : bool;
  error : option string;
  voiceMode : bool;
  interviewStage : string;
  jobRoleData : option JobRole;
  currentCodingChallenge : option Challenge;
}.

(** The actions of the reducer; [OTHER] stands for any unknown action type. *)
Inductive Action :=
| SET_USER_ID (payload : option string)
| SET_SESSION_ID (payload : option string)
| SET_MESSAGES (payload : list Msg.t)
| ADD_MESSAGE (payload : Msg.t)
| SET_LOADING (payload : bool)
| SET_ERROR (payload : option string)
| SET_VOICE_MODE (payload : bool)
| SET_INTERVIEW_STAGE (payload : string)
| SET_JOB_ROLE_DATA (payload : option JobRole)
| SET_CURRENT_CODING_CHALLENGE (payload : option Challenge)
| RESET
| OTHER.

Section Reducer.

(** [uuid0] is the value [uuidv4()] returned when the module was loaded. *)
Variable uuid0 : string.

Definition initialState : State := {|
    userId := Some ("user-" +:+ uuid0);
    sessionId := None;
    messages := [];
    loading := false;
    error := None;
    voiceMode := false;
    interviewStage := "introduction";
    jobRoleData := None;
    currentCodingChallenge := None;
  |}.

(** [reducer fresh state action]: [fresh] is what [uuidv4()] returns if the
    reduction calls it (only RESET does). *)
Definition reducer (fresh : string) (state : State) (action : Action) : State :=
  match action with
  | SET_USER_ID p =>
      {| userId := p; sessionId := sessionId state; messages := messages state;
         loading := loading state; error := error state;
         voiceMode := voiceMode state; interviewStage := interviewStage state;
         jobRoleData := jobRoleData state;
         currentCodingChallenge := currentCodingChallenge state |}
  | SET_SESSION_ID p =>
      {| userId := userId state; sessionId := p; messages := messages state;
         loading := loading state; error := error state;
         voiceMode := voiceMode state; interviewStage := interviewStage state;
         jobRoleData := jobRoleData state;
         currentCodingChallenge := currentCodingChallenge state |}
  | SET_MESSAGES p =>
      {| userId := userId state; sessionId := sessionId state; messages := p;
         loading := loading state; error := error state;
         voiceMode := voiceMode state; interviewStage := interviewStage state;
         jobRoleData := jobRoleData state;
         currentCodingChallenge := currentCodingChallenge state |}
  | ADD_MESSAGE p =>
      {| userId := userId state; sessionId := sessionId state;
         messages := messages state ++ [p];
         loading := loading state; error := error state;
         voiceMode := voiceMode state; interviewStage := interviewStage state;
         jobRoleData := jobRoleData state;
         currentCodingChallenge := currentCodingChallenge state |}
  | SET_LOADING p =>
      {| userId := userId state; sessionId := sessionId state;
         messages := messages state; loading := p; error := error state;
         voiceMode := voiceMode state; interviewStage := interviewStage state;
         jobRoleData := jobRoleData state;
         currentCodingChallenge := currentCodingChallenge state |}
  | SET_ERROR p =>
      {| userId := userId state; sessionId := sessionId state;
         messages := messages state; loading := loading state; error := p;
         voiceMode := voiceMode state; interviewStage := interviewStage state;
         jobRoleData := jobRoleData state;
         currentCodingChallenge := currentCodingChallenge state |}
  | SET_VOICE_MODE p =>
      {| userId := userId state; sessionId := sessionId state;
         messages := messages state; loading := loading state;
         error := error state; voiceMode := p;
         interviewStage := interviewStage state;
         jobRoleData := jobRoleData state;
         currentCodingChallenge := currentCodingChallenge state |}
  | SET_INTERVIEW_STAGE p =>
      {| userId := userId state; sessionId := sessionId state;
         messages := messages state; loading := loading state;
         error := error state; voiceMode := voiceMode state;
         interviewStage := p; jobRoleData := jobRoleData state;
         currentCodingChallenge := currentCodingChallenge state |}
  | SET_JOB_ROLE_DATA p =>
      {| userId := userId state; sessionId := sessionId state;
         messages := messages state; loading := loading state;
         error := error state; voiceMode := voiceMode state;
         interviewStage := interviewStage state; jobRoleData := p;
         currentCodingChallenge := currentCodingChallenge state |}
  | SET_CURRENT_CODING_CHALLENGE p =>
      {| userId := userId state; sessionId := sessionId state;
         messages := messages state; loading := loading state;
         error := error state; voiceMode := voiceMode state;
         interviewStage := interviewStage state;
         jobRoleData := jobRoleData state; currentCodingChallenge := p |}
  | RESET =>
      {| userId := Some ("user-" +:+ fresh);
         sessionId := sessionId initialState;
         messages := [];
         loading := loading initialState;
         error := error initialState;
         voiceMode := voiceMode initialState;
         interviewStage := interviewStage initialState;
         jobRoleData := jobRoleData initialState;
         currentCodingChallenge := None |}
  | OTHER => state
  end.

End Reducer.

(** ** Errors, server data and requests *)

(** The [response] attached to an axios error when the server answered with
    an error status: its status, [data?.detail] and [statusText]. *)
Record HttpError := {
  status : Z;
  detail : option string;
  statusText : option string;
}.

(** A JavaScript error object, with the properties the client reads or
    attaches: [enhanced_status], [originalError] and [serverData] are the
    [status], [originalError] and [serverData] that handleApiError attaches
    ([serverData], the data of the response, is known by its [detail]). *)
Module Err.
#[warnings="-register-all"]
Inductive t := Build {
  name : string;
  message : string;
  response : option HttpError;
  request : bool;
  enhanced_status : option Z;
  isVoiceUnavailable : bool;
  isNoSpeech : bool;
  originalError : option t;
  serverData : option (option string);
}.

(** [new Error(msg)]. *)
Definition new (msg : string) : t :=
  {| name := "Error"; message := msg; response := None; request := false;
     enhanced_status := None; isVoiceUnavailable := false;
     isNoSpeech := false; originalError := None; serverData := None |}.

Definition set_message (msg : string) (e : t) : t :=
  {| name := name e; message := msg; response := response e;
     request := request e; enhanced_status := enhanced_status e;
     isVoiceUnavailable := isVoiceUnavailable e; isNoSpeech := isNoSpeech e;
     originalError := originalError e; serverData := serverData e |}.
End Err.

(** The JSON object the server answers with ([response.data]). *)
Module Data.
Record t := {
  session_id : option string;
  response : option string;
  interview_stage : option string;
  coding_challenge_detail : option Challenge;
  codingChallengeDetail : option Challenge;
  tool_calls : option Js.Json;
  audio_response_url : option string;
  transcription : option string;
  hints : option (list string);
}.

(** [{...data, codingChallengeDetail: data.coding_challenge_detail}]. *)
Definition with_detail (d : t) : t :=
  {| session_id := session_id d; response := response d;
     interview_stage := interview_stage d;
     coding_challenge_detail := coding_challenge_detail d;
     codingChallengeDetail := coding_challenge_detail d;
     tool_calls := tool_calls d;
     audio_response_url := audio_response_url d;
     transcription := transcription d; hints := hints d |}.
End Data.

(** The evaluation the server returns for a submission. *)
Record Summary := {
  pass_count : option Z;
  fail_count : option Z;
  total_tests : option Z;
  all_tests_passed : option bool;
}.

Record Evaluation := {
  eval_status : option string;
  eval_detail : option string;
  error_message : option string;
  overall_summary : option Summary;
}.

(** A request that leaves the browser: through the axios instance [api]
  (path relative to the base URL /api, the Authorization header set by the
  request interceptor) or through [fetch]. *)
Inductive Request :=
| AxiosPost (url : string) (authorization : option string)
  (body : list (string * Js.Json)) (timeout : Z)
| FetchPost (url : string) (authorization : string) (body : string).

Inductive Reply :=
| Ok (data : Data.t)
| Fail (e : Err.t).

Inductive FetchReply :=
| FetchRejected (e : Err.t)
| FetchResponse (ok : bool) (result : Evaluation).

(** ** Component state *)

(** Local state of ChatInterface. *)
Record Chat := {
  messageInput : string;
  isWaitingForCodingChallenge : bool;
  showPermissionHelp : bool;
}.

(** Local state of CodingChallenge. *)
Module Editor.
Record t := {
  currentChallengeDetails : option Challenge;
  code : string;
  language : string;
  evaluationResult : option Evaluation;
  isEvaluating : bool;
}.
End Editor.

Record Toast := {
  toast_title : string;
  toast_description : option string;
  toast_status : string;
}.

(** Everything a handler can change: the context state, the local state of the
    two components, the open toasts, and the logs of requests sent and of
    actions dispatched to the reducer. *)
Record World := {
  ctx : State;
  chat : Chat;
  editor : Editor.t;
  toasts : list Toast;
  sent : list Request;
  dispatched : list Action;
}.

Definition set_ctx (f : State -> State) (a : list Action) (w : World) : World :=
  {| ctx := f (ctx w); chat := chat w; editor := editor w; toasts := toasts w;
     sent := sent w; dispatched := dispatched w ++ a |}.

Definition set_chat (f : Chat -> Chat) (w : World) : World :=
  {| ctx := ctx w; chat := f (chat w); editor := editor w; toasts := toasts w;
     sent := sent w; dispatched := dispatched w |}.

Definition set_editor (f : Editor.t -> Editor.t) (w : World) : World :=
  {| ctx := ctx w; chat := chat w; editor := f (editor w); toasts := toasts w;
     sent := sent w; dispatched := dispatched w |}.

Definition set_toasts (f : list Toast -> list Toast) (w : World) : World :=
  {| ctx := ctx w; chat := chat w; editor := editor w; toasts := f (toasts w);
     sent := sent w; dispatched := dispatched w |}.

Definition log_request (r : Request) (w : World) : World :=
  {| ctx := ctx w; chat := chat w; editor := editor w; toasts := toasts w;
     sent := sent w ++ [r]; dispatched := dispatched w |}.

(** ** The monad of handlers *)

Inductive Outcome (A : Type) :=
| Returned (a : A)
| Thrown (e : Err.t).
Arguments Returned {A} a.
Arguments Thrown {A} e.

Definition M (A : Type) : Type := World -> World * Outcome A.

Definition ret {A} (a : A) : M A := fun w => (w, Returned a).

Definition throw {A} (e : Err.t) : M A := fun w => (w, Thrown e).

Definition bind {A B} (m : M A) (k : A -> M B) : M B :=
  fun w =>
    match m w with
    | (w', Returned a) => k a w'
    | (w', Thrown e) => (w', Thrown e)
    end.

(** [try { m } catch (err) { handler err }]. *)
Definition tryCatch {A} (m : M A) (handler : Err.t -> M A) : M A :=
  fun w =>
    match m w with
    | (w', Returned a) => (w', Returned a)
    | (w', Thrown e) => handler e w'
    end.

(** [try { m } finally { fin }]. *)
Definition tryFinally {A} (m : M A) (fin : M unit) : M A :=
  fun w =>
    match m w with
    | (w', o) =>
        match fin w' with
        | (w'', Returned _) => (w'', o)
        | (w'', Thrown e) => (w'', Thrown e)
        end
    end.

Definition when (b : bool) (m : M unit) : M unit :=
  if b then m else ret tt.

Notation "'await' x ':=' m 'in' k" := (bind m (fun x => k))
  (at level 10, x name, m at level 100, k at level 200).
Notation "m >> k" := (bind m (fun _ => k))
  (at level 90, right associativity).

Definition modify (f : World -> World) : M unit := fun w => (f w, Returned tt).

Definition toast (title : string) (descr : option string) (st : string) : M unit :=
  modify (set_toasts (fun l =>
    l ++ [{| toast_title := title; toast_description := descr;
             toast_status := st |}])).

Definition toast_closeAll : M unit := modify (set_toasts (fun _ => [])).

(** ** The service layer (api/interviewService.js) *)

Section Client.

(** The world outside the page: what the server answers to a request (given
    the requests sent before it), the token in local storage, the clock,
    the next value of [uuidv4()] and [JSON.stringify]. *)
Variable server : list Request -> Request -> Reply.
Variable fetchServer : list Request -> Request -> FetchReply.
Variable authToken : option string.
Variable now : Z.
Variable uuid0 uuid : string.
Variable JSON_stringify : Js.Json -> string.

Definition dispatch (a : Action) : M unit :=
  modify (set_ctx (fun s => reducer uuid0 uuid s a) [a]).

(** The response interceptor: rewrites the message of rate-limit and server
    errors and rejects with the same error object. *)
Definition responseInterceptor (error : Err.t) : Err.t :=
  let error :=
    match Err.response error with
    | Some r =>
        if status r =? 429
        then Err.set_message
               "Too many requests. Please wait a moment before trying again."
               error
        else error
    | None => error
    end in
  match Err.response error with
  | Some r =>
      if 500 <=? status r
      then Err.set_message
             "The server encountered an error. Please try again later."
             error
      else error
  | None => error
  end.

(** The request interceptor: the Authorization header. *)
Definition authorizationHeader : option string :=
  if Js.truthy authToken then Some ("Bearer " +:+ Js.show authToken) else None.

(** [api.post(url, body, {timeout})]: the request is logged, the server
    answers, and a failure goes through the response interceptor. *)
Definition api_post (url : string) (body : list (string * Js.Json))
    (timeout : Z) : M Data.t :=
  fun w =>
    let r := AxiosPost url authorizationHeader body timeout in
    match server (sent w) r with
    | Ok data => (log_request r w, Returned data)
    | Fail e => (log_request r w, Thrown (responseInterceptor e))
    end.

Definition default_timeout : Z := 120000.

(** The message of the error [handleApiError] throws. *)
Definition apiErrorMessage (error : Err.t) (customMessage : option string)
    : string :=
  let errorMessage :=
    if Js.truthy customMessage then Js.show customMessage
    else "An error occurred" in
  match Err.response error with
  | Some r =>
      let serverError := Js.or (detail r) (statusText r) in
      "Server error: " +:+ Js.show serverError
  | None =>
      if Err.request error
      then "No response from server. Check your network connection."
      else if negb (String.eqb (Err.message error) "")
           then Err.message error
           else errorMessage
  end.

(** The enhanced error object [handleApiError] builds. *)
Definition enhancedError (error : Err.t) (customMessage : option string) : Err.t :=
  {| Err.name := "Error";
     Err.message := apiErrorMessage error customMessage;
     Err.response := None; Err.request := false;
     Err.enhanced_status := status <$> Err.response error;
     Err.isVoiceUnavailable := false; Err.isNoSpeech := false;
     Err.originalError := Some error;
     Err.serverData := detail <$> Err.response error |}.

Definition handleApiError {A} (error : Err.t) (customMessage : option string)
    : M A :=
  throw (enhancedError error customMessage).

Definition skills_json (l : option (list string)) : Js.Json :=
  match l with
  | Some l => Js.JArr (map Js.JStr l)
  | None => Js.JUndefined
  end.

(** The properties added to a request body when job role data is given. *)
Definition jobRoleFields (jobRole : option JobRole) : list (string * Js.Json) :=
  match jobRole with
  | Some j =>
      [("job_role", Js.of_prop (role_name j));
       ("seniority_level", Js.of_prop (seniority_level j));
       ("required_skills", skills_json (required_skills j));
       ("job_description", Js.of_prop (description j))]
  | None => []
  end.

Definition startInterview (message : string) (userId : option string)
    (jobRole : option JobRole) : M Data.t :=
  tryCatch
    (let requestBody :=
       [("message", Js.JStr message); ("user_id", Js.of_string userId)]
       ++ jobRoleFields jobRole in
     await data := api_post "/interview" requestBody default_timeout in
     ret (Data.with_detail data))
    (fun error => handleApiError error (Some "Failed to start interview")).

Definition continueInterview (message : string) (sessionId userId : option string)
    (jobRole : option JobRole) : M Data.t :=
  tryCatch
    (if negb (Js.truthy sessionId)
     then throw (Err.new "Session ID is required")
     else if negb (Js.truthy userId)
     then throw (Err.new "User ID is required")
     else
       let requestBody :=
         [("message", Js.JStr message); ("user_id", Js.of_string userId)]
         ++ jobRoleFields jobRole in
       await data := api_post ("/interview/" +:+ Js.show sessionId)
                       requestBody default_timeout in
       ret (Data.with_detail data))
    (fun error => handleApiError error (Some "Failed to continue interview")).

(** The error thrown when the server has no voice processing (status 501). *)
Definition voiceUnavailableError : Err.t :=
  {| Err.name := "Error";
     Err.message := "Voice processing is not available on this server";
     Err.response := None; Err.request := false;
     Err.enhanced_status := None;
     Err.isVoiceUnavailable := true; Err.isNoSpeech := false;
     Err.originalError := None; Err.serverData := None |}.

(** The error thrown when no speech was detected (status 422). *)
Definition noSpeechError : Err.t :=
  {| Err.name := "Error";
     Err.message := "No speech detected or audio could not be transcribed";
     Err.response := None; Err.request := false;
     Err.enhanced_status := None;
     Err.isVoiceUnavailable := false; Err.isNoSpeech := true;
     Err.originalError := None; Err.serverData := None |}.

(** The data URI sent to the server: the audio itself when it is one already,
    the raw base64 behind a WAV data URI prefix otherwise. *)
Definition formattedAudioData (audioBase64 : string) : string :=
  let isFullDataUri := Js.startsWith audioBase64 "data:audio/" in
  if negb isFullDataUri then "data:audio/wav;base64," +:+ audioBase64
  else audioBase64.

Definition transcribeAndRespond (audioBase64 : option string)
    (userId sessionId : option string) (jobRole : option JobRole) : M Data.t :=
  tryCatch
    (if negb (Js.truthy audioBase64)
     then throw (Err.new "Audio data is required")
     else
       let requestBody :=
         [("audio_data", Js.JStr (formattedAudioData (Js.show audioBase64)));
          ("user_id",
           Js.JStr (if Js.truthy userId then Js.show userId
                    else "anon-" +:+ pretty now));
          ("session_id", Js.of_string sessionId);
          ("sample_rate", Js.JNum 16000);
          ("channels", Js.JNum 1)]
         ++ jobRoleFields jobRole in
       tryCatch
         (await data := api_post "/audio/transcribe" requestBody 60000 in
          if negb (Js.truthy (Data.transcription data))
          then throw (Err.new "Invalid response from transcription service")
          else ret data)
         (fun requestError => throw requestError))
    (fun error =>
       match Err.response error with
       | Some r =>
           if status r =? 501 then throw voiceUnavailableError
           else if status r =? 422 then throw noSpeechError
           else handleApiError error (Some "Failed to process voice input")
       | None => handleApiError error (Some "Failed to process voice input")
       end).

(** [!code || code.trim() === ''] *)
Definition code_missing (code : option string) : bool :=
  negb (Js.truthy code) || String.eqb (Js.trim (Js.show code)) "".

Definition submitChallengeCode (challengeId code userId sessionId : option string)
    : M Data.t :=
  tryCatch
    (if negb (Js.truthy challengeId)
     then throw (Err.new "Challenge ID is required")
     else if code_missing code
     then throw (Err.new "Code solution is required")
     else
       let requestBody :=
         [("challenge_id", Js.of_string challengeId);
          ("code", Js.of_string code);
          ("user_id", Js.of_string userId);
          ("session_id", Js.of_string sessionId)] in
       api_post "/coding/submit" requestBody default_timeout)
    (fun error => handleApiError error (Some "Failed to submit code solution")).

Definition getChallengeHint (challengeId code userId sessionId : option string)
    (errorMessage : option string) : M Data.t :=
  tryCatch
    (if negb (Js.truthy challengeId)
     then throw (Err.new "Challenge ID is required")
     else
       let requestBody :=
         [("challenge_id", Js.of_string challengeId);
          ("code", Js.JStr (if Js.truthy code then Js.show code else ""));
          ("user_id", Js.of_string userId);
          ("session_id", Js.of_string sessionId);
          ("error_message", Js.of_string errorMessage)] in
       api_post "/coding/hint" requestBody default_timeout)
    (fun error => handleApiError error (Some "Failed to get hint")).

Definition continueAfterCodingChallenge (message : string)
    (sessionId userId : option string) (completed : bool) : M Data.t :=
  tryCatch
    (if negb (Js.truthy sessionId)
     then throw (Err.new "Session ID is required")
     else if negb (Js.truthy userId)
     then throw (Err.new "User ID is required")
     else
       let requestBody :=
         [("message", Js.JStr message);
          ("user_id", Js.of_string userId);
          ("challenge_completed", Js.JBool completed)] in
       api_post ("/interview/" +:+ Js.show sessionId +:+ "/challenge-complete")
         requestBody default_timeout)
    (fun error => handleApiError error (Some "Failed to continue after challenge")).

(** ** The chat handlers (components/ChatInterface.js) *)

(** The audio recorder hook, as far as the chat uses it. *)
Record AudioData := { blob : option string }.
Variable stopRecording : Outcome (option AudioData).
Variable getAudioBase64 : string -> Outcome (option string).
Variable initRecording : Outcome bool.

Definition lift {A} (o : Outcome A) : M A := fun w => (w, o).

(** A handler reads the values of the render it was created in. *)
Definition rendered {A} (f : State -> Chat -> Editor.t -> M A) : M A :=
  fun w => f (ctx w) (chat w) (editor w) w.

Definition setMessageInput (s : string) : M unit :=
  modify (set_chat (fun c =>
    {| messageInput := s;
       isWaitingForCodingChallenge := isWaitingForCodingChallenge c;
       showPermissionHelp := showPermissionHelp c |})).

Definition setIsWaitingForCodingChallenge (b : bool) : M unit :=
  modify (set_chat (fun c =>
    {| messageInput := messageInput c;
       isWaitingForCodingChallenge := b;
       showPermissionHelp := showPermissionHelp c |})).

Definition setShowPermissionHelp (b : bool) : M unit :=
  modify (set_chat (fun c =>
    {| messageInput := messageInput c;
       isWaitingForCodingChallenge := isWaitingForCodingChallenge c;
       showPermissionHelp := b |})).

Definition is_coding_stage (stage : string) : bool :=
  String.eqb stage "coding_challenge"
  || String.eqb stage "coding_challenge_waiting".

Definition is_some {A} (o : option A) : bool :=
  match o with Some _ => true | None => false end.

(** The effect that keeps the local waiting flag in step with the context. *)
Definition waitingEffect : M unit :=
  rendered (fun st _ _ =>
    if String.eqb (interviewStage st) "coding_challenge"
       && is_some (currentCodingChallenge st)
    then setIsWaitingForCodingChallenge true
    else if negb (String.eqb (interviewStage st) "coding_challenge")
    then
      setIsWaitingForCodingChallenge false >>
      when (negb (is_some (currentCodingChallenge st)))
        (setIsWaitingForCodingChallenge false)
    else ret tt).

(** What handleSendMessage does with the response it obtained: the reply is
    added to the chat, then the stage and the challenge are updated. *)
Definition recordResponse (response : Data.t) : M unit :=
  when (Js.truthy (Data.response response))
    (dispatch (ADD_MESSAGE
       (Msg.assistant (Data.response response)
          (Data.tool_calls response)
          (Data.audio_response_url response)))) >>
  when (Js.truthy (Data.interview_stage response))
    (let stage := Js.show (Data.interview_stage response) in
     dispatch (SET_INTERVIEW_STAGE stage) >>
     if is_coding_stage stage
        && is_some (Data.codingChallengeDetail response)
     then dispatch (SET_CURRENT_CODING_CHALLENGE
                      (Data.codingChallengeDetail response))
     else ret tt).

Definition handleSendMessage : M unit :=
  rendered (fun st ch _ =>
    let messageInput := messageInput ch in
    if String.eqb (Js.trim messageInput) "" then ret tt
    else
      tryFinally
        (tryCatch
           (dispatch (SET_LOADING true) >>
            dispatch (ADD_MESSAGE (Msg.user messageInput)) >>
            setMessageInput "" >>
            await response :=
              (if Js.truthy (sessionId st) then
                 if isWaitingForCodingChallenge ch then
                   await r := continueAfterCodingChallenge messageInput
                                (sessionId st) (userId st) true in
                   dispatch (SET_CURRENT_CODING_CHALLENGE None) >>
                   setIsWaitingForCodingChallenge false >>
                   ret r
                 else
                   continueInterview messageInput (sessionId st) (userId st)
                     (jobRoleData st)
               else
                 await r := startInterview messageInput (userId st)
                              (jobRoleData st) in
                 when (Js.truthy (Data.session_id r))
                   (dispatch (SET_SESSION_ID (Data.session_id r))) >>
                 ret r) in
            recordResponse response >>
            dispatch (SET_ERROR None))
           (fun err =>
              dispatch (SET_ERROR
                (Some "Failed to send message. Please try again."))))
        (dispatch (SET_LOADING false))).

(** The loop that walks a copy of the messages from the end and overwrites
    the last user entry still marked as loading. *)
Fixpoint replaceFirstLoading (l : list Msg.t) (m : Msg.t) : list Msg.t :=
  match l with
  | [] => []
  | x :: r =>
      if String.eqb (Msg.role x) "user" && Msg.loading x then m :: r
      else x :: replaceFirstLoading r m
  end.

Definition replaceLastLoading (l : list Msg.t) (m : Msg.t) : list Msg.t :=
  rev (replaceFirstLoading (rev l) m).

Definition transcribing : Msg.t :=
  {| Msg.role := "user"; Msg.content := Some "ðŸŽ¤ Transcribing audio...";
     Msg.tool_calls := None; Msg.audioUrl := None; Msg.loading := true;
     Msg.isHint := false; Msg.error := false |}.

Fixpoint includes (s p : string) : bool :=
  String.prefix p s
  || match s with
     | EmptyString => false
     | String _ r => includes r p
     end.

Definition handleVoiceRecording (isRecording : bool) : M unit :=
  rendered (fun st ch _ =>
    if isRecording then
      tryFinally
        (tryCatch
           (await audioData := lift stopRecording in
            match audioData with
            | Some {| blob := Some b |} =>
                await audioBase64 := lift (getAudioBase64 b) in
                if negb (Js.truthy audioBase64)
                then throw (Err.new "Failed to encode audio data.")
                else
                  dispatch (SET_LOADING true) >>
                  dispatch (ADD_MESSAGE transcribing) >>
                  await response :=
                    transcribeAndRespond audioBase64 (userId st)
                      (sessionId st) (jobRoleData st) in
                  let updatedMessages :=
                    replaceLastLoading (messages st)
                      (Msg.user
                         (if Js.truthy (Data.transcription response)
                          then Js.show (Data.transcription response)
                          else "(No speech detected)")) in
                  dispatch (ADD_MESSAGE
                    (Msg.assistant (Data.response response)
                       (Data.tool_calls response)
                       (Data.audio_response_url response))) >>
                  when (Js.truthy (Data.interview_stage response))
                    (let stage := Js.show (Data.interview_stage response) in
                     dispatch (SET_INTERVIEW_STAGE stage) >>
                     if String.eqb stage "coding_challenge"
                        && is_some (Data.coding_challenge_detail response)
                     then dispatch (SET_CURRENT_CODING_CHALLENGE
                                      (Data.coding_challenge_detail response))
                     else if negb (String.eqb stage "coding_challenge")
                     then when (is_some (currentCodingChallenge st))
                            (dispatch (SET_CURRENT_CODING_CHALLENGE None))
                     else ret tt) >>
                  dispatch (SET_ERROR None)
            | _ => throw (Err.new "Failed to get audio data.")
            end)
           (fun err =>
              let updatedMessages :=
                replaceLastLoading (messages st)
                  {| Msg.role := "user";
                     Msg.content :=
                       Some (if Err.isNoSpeech err
                             then "(No speech detected. Please try again.)"
                             else "(Error transcribing audio. Please try again.)");
                     Msg.tool_calls := None; Msg.audioUrl := None;
                     Msg.loading := false; Msg.isHint := false;
                     Msg.error := true |} in
              dispatch (SET_ERROR
                (Some (if Err.isVoiceUnavailable err
                       then "Voice processing is not available."
                       else "Failed to process voice input. Please try again.")))))
        (dispatch (SET_LOADING false))
    else
      tryCatch
        (await _ := lift initRecording in ret tt)
        (fun err =>
           dispatch (SET_ERROR
             (Some "Failed to start recording. Please check microphone permissions.")) >>
           when (String.eqb (Err.name err) "NotAllowedError"
                 || includes (Err.message err) "permission")
             (setShowPermissionHelp true))).

Fixpoint join (l : list string) (sep : string) : string :=
  match l with
  | [] => ""
  | [x] => x
  | x :: r => x +:+ sep +:+ join r sep
  end.

Definition newline : string := String (ascii_of_nat 10) EmptyString.

Definition hintMessage (text : string) : Msg.t :=
  {| Msg.role := "assistant"; Msg.content := Some text;
     Msg.tool_calls := None; Msg.audioUrl := None; Msg.loading := false;
     Msg.isHint := true; Msg.error := false |}.

Definition handleRequestHint (currentCode : option string) : M unit :=
  rendered (fun st _ _ =>
    match currentCodingChallenge st with
    | None => ret tt
    | Some challenge =>
        tryFinally
          (tryCatch
             (dispatch (SET_LOADING true) >>
              await hintResponse :=
                getChallengeHint (challenge_id challenge) currentCode
                  (userId st) (sessionId st) None in
              match Data.hints hintResponse with
              | Some (h :: hs) =>
                  dispatch (ADD_MESSAGE
                    (hintMessage ("Hint: " +:+ join (h :: hs) (newline +:+ newline))))
              | _ =>
                  dispatch (ADD_MESSAGE
                    (hintMessage "I don't have a specific hint for this code at the moment. Try breaking down the problem into smaller steps."))
              end)
             (fun err =>
                toast "Hint Error"
                  (Some "Failed to get a hint. Please try again later.") "error"))
          (dispatch (SET_LOADING false))
    end).

(** ** The editor handlers (components/CodingChallenge.js)

    The component is mounted by the interview page with the context's
    challenge, session id and user id as props and without [onComplete]. *)


Definition setCode (c : string) : M unit :=
  modify (set_editor (fun e =>
    {| Editor.currentChallengeDetails := Editor.currentChallengeDetails e;
       Editor.code := c; Editor.language := Editor.language e;
       Editor.evaluationResult := Editor.evaluationResult e;
       Editor.isEvaluating := Editor.isEvaluating e |})).


Definition setEvaluationResult (r : option Evaluation) : M unit :=
  modify (set_editor (fun e =>
    {| Editor.currentChallengeDetails := Editor.currentChallengeDetails e;
       Editor.code := Editor.code e; Editor.language := Editor.language e;
       Editor.evaluationResult := r;
       Editor.isEvaluating := Editor.isEvaluating e |})).

Definition setIsEvaluating (b : bool) : M unit :=
  modify (set_editor (fun e =>
    {| Editor.currentChallengeDetails := Editor.currentChallengeDetails e;
       Editor.code := Editor.code e; Editor.language := Editor.language e;
       Editor.evaluationResult := Editor.evaluationResult e;
       Editor.isEvaluating := b |})).


(** The effect that moves the stage once a challenge is loaded. *)
Definition stageEffect : M unit :=
  rendered (fun st _ ed =>
    if is_some (Editor.currentChallengeDetails ed)
       && negb (String.eqb (interviewStage st) "coding_challenge_waiting")
    then dispatch (SET_INTERVIEW_STAGE "coding_challenge_waiting")
    else ret tt).

(** [fetch(url, {method: 'POST', headers, body})] followed by
    [response.json()]. *)
Definition fetch_post (url authorization body : string) : M (bool * Evaluation) :=
  fun w =>
    let r := FetchPost url authorization body in
    match fetchServer (sent w) r with
    | FetchResponse ok result => (log_request r w, Returned (ok, result))
    | FetchRejected e => (log_request r w, Thrown e)
    end.

Definition num_json (n : option Z) : Js.Json :=
  match n with Some n => Js.JNum n | None => Js.JUndefined end.

Definition bool_json (b : option bool) : Js.Json :=
  match b with Some b => Js.JBool b | None => Js.JUndefined end.

Definition summary_json (s : option Summary) : Js.Json :=
  match s with
  | Some s =>
      Js.JObj [("pass_count", num_json (pass_count s));
               ("fail_count", num_json (fail_count s));
               ("total_tests", num_json (total_tests s));
               ("all_tests_passed", bool_json (all_tests_passed s))]
  | None => Js.JUndefined
  end.

Definition evaluation_json (e : option Evaluation) : Js.Json :=
  match e with
  | Some e =>
      Js.JObj [("status", Js.of_prop (eval_status e));
               ("detail", Js.of_prop (eval_detail e));
               ("error_message", Js.of_prop (error_message e));
               ("overall_summary", summary_json (overall_summary e))]
  | None => Js.JNull
  end.

(** The object handed to [JSON.stringify] by the editor's submit. *)
Definition submitBody (st : State) (ed : Editor.t) : list (string * Js.Json) :=
  [("challenge_id",
    Js.of_prop
      (match Editor.currentChallengeDetails ed with
       | Some c => Js.or (challenge_id c) (id c)
       | None => None
       end));
   ("language", Js.JStr (Editor.language ed));
   ("code", Js.JStr (Editor.code ed));
   ("user_id", Js.of_string (userId st));
   ("session_id", Js.of_string (sessionId st))].

Definition or_zero (n : option Z) : Z := default 0 n.

Definition handleSubmit : M unit :=
  rendered (fun st _ ed =>
    if String.eqb (Js.trim (Editor.code ed)) "" then
      toast "Empty Code" (Some "Please write some code before submitting.")
        "warning"
    else
      setIsEvaluating true >>
      setEvaluationResult None >>
      toast "Submitting Solution..."
        (Some "Evaluating your code against test cases.") "info" >>
      if negb (Js.truthy authToken) then
        toast_closeAll >>
        toast "Authentication Error"
          (Some "Auth token not found. Please log in.") "error" >>
        setIsEvaluating false
      else
        tryFinally
          (tryCatch
             (await reply :=
                fetch_post "/api/coding/submit"
                  ("Bearer " +:+ Js.show authToken)
                  (JSON_stringify (Js.JObj (submitBody st ed))) in
              let '(ok, result) := reply in
              toast_closeAll >>
              if negb ok then
                throw (Err.new
                  (if Js.truthy (eval_detail result)
                   then Js.show (eval_detail result)
                   else if Js.truthy (error_message result)
                   then "Evaluation Error: " +:+ Js.show (error_message result)
                   else "An unknown error occurred during submission."))
              else
                let summary := overall_summary result in
                setEvaluationResult (Some result) >>
                toast "Evaluation Complete"
                  (Some ("Passed "
                         +:+ pretty (or_zero (summary ≫= pass_count)) +:+ "/"
                         +:+ pretty (or_zero (summary ≫= total_tests))
                         +:+ " test cases."))
                  (if default false (summary ≫= all_tests_passed)
                   then "success" else "warning"))
             (fun error =>
                toast_closeAll >>
                toast "Submission Error"
                  (Some (if negb (String.eqb (Err.message error) "")
                         then Err.message error
                         else "Could not connect to the server or process the submission."))
                  "error" >>
                setEvaluationResult
                  (Some {| eval_status := Some "error";
                           eval_detail := None;
                           error_message :=
                             Some (if negb (String.eqb (Err.message error) "")
                                   then Err.message error
                                   else "Submission failed.");
                           overall_summary :=
                             Some {| pass_count := Some 0;
                                     fail_count := Some 0;
                                     total_tests := Some 0;
                                     all_tests_passed := Some false |} |})))
          (setIsEvaluating false)).

(** The message built by "Return to Interviewer". *)
Definition feedbackMessage (ed : Editor.t) : Js.Json :=
  Js.JObj [("type", Js.JStr "user");
           ("content", Js.JStr "return to interviewer for feedback");
           ("evaluationResult", evaluation_json (Editor.evaluationResult ed));
           ("code", Js.JStr (Editor.code ed))].

Definition handleReturnToInterviewer : M unit :=
  rendered (fun st _ ed =>
    tryCatch
      (await _ := continueAfterCodingChallenge
                    (JSON_stringify (feedbackMessage ed))
                    (sessionId st) (userId st) true in
       dispatch (SET_INTERVIEW_STAGE "FEEDBACK"))
      (fun error => ret tt)).

End Client.

(** ** Conversations and traces *)

(** The actions that keep the transcript or extend it at the end; the two
    others replace it (SET_MESSAGES) or empty it (RESET). *)
Definition append_only (a : Action) : bool :=
  match a with
  | SET_MESSAGES _ | RESET => false
  | _ => true
  end.

(** A computation is traced when the context state changes through dispatched
    actions only, each of them append-only. *)
Definition Traced {A} (uuid0 uuid : string) (m : M A) : Prop :=
  forall w, exists acts,
    dispatched (fst (m w)) = dispatched w ++ acts
    /\ ctx (fst (m w)) = foldl (reducer uuid0 uuid) (ctx w) acts
    /\ Forall (fun a => append_only a = true) acts.

(** A run of a handler from [w] is append-only when the context state changes
    through dispatched actions only, none of which (whatever the state it is
    applied to) removes or alters an entry of the transcript: the messages
    before the action are a prefix of the messages after it. *)
Definition AppendOnlyRun {A} (uuid0 uuid : string) (m : M A) (w : World) : Prop :=
  exists acts,
    dispatched (fst (m w)) = dispatched w ++ acts
    /\ ctx (fst (m w)) = foldl (reducer uuid0 uuid) (ctx w) acts
    /\ Forall (fun a => forall st,
                 messages st `prefix_of` messages (reducer uuid0 uuid st a)) acts
    /\ messages (ctx w) `prefix_of` messages (ctx (fst (m w))).

(** The path a request is addressed to. *)
Definition request_url (r : Request) : string :=
  match r with
  | AxiosPost url _ _ _ => url
  | FetchPost url _ _ => url
  end.

(** ** Sample worlds

    Concrete servers and page states, used to run the handlers. *)

(** A server that opens session s1 and greets. *)
Definition greeting : Data.t :=
  {| Data.session_id := Some "s1"; Data.response := Some "Welcome";
     Data.interview_stage := Some "introduction";
     Data.coding_challenge_detail := None;
     Data.codingChallengeDetail := None; Data.tool_calls := None;
     Data.audio_response_url := None; Data.transcription := None;
     Data.hints := None |}.

Definition greeter (history : list Request) (r : Request) : Reply := Ok greeting.

(** A server that is down: every request fails with status 503. *)
Definition unavailable : Err.t :=
  {| Err.name := "AxiosError";
     Err.message := "Request failed with status code 503";
     Err.response := Some {| status := 503; detail := None;
                             statusText := Some "Service Unavailable" |};
     Err.request := true; Err.enhanced_status := None;
     Err.isVoiceUnavailable := false; Err.isNoSpeech := false;
     Err.originalError := None; Err.serverData := None |}.

Definition down (history : list Request) (r : Request) : Reply := Fail unavailable.

Definition twoSum : Challenge :=
  {| challenge_id := Some "c1"; id := None; title := Some "Two Sum";
     starter_code := Some "def solve(): pass"; language := Some "python" |}.

(** A challenge object that carries neither [challenge_id] nor [id]. *)
Definition untagged : Challenge :=
  {| challenge_id := None; id := None; title := Some "Two Sum";
     starter_code := Some "def solve(): pass"; language := Some "python" |}.

Definition emptyEditor : Editor.t :=
  {| Editor.currentChallengeDetails := None; Editor.code := "";
     Editor.language := "python"; Editor.evaluationResult := None;
     Editor.isEvaluating := false |}.

Definition page (st : State) (text : string) (waiting : bool) : World :=
  {| ctx := st;
     chat := {| messageInput := text; isWaitingForCodingChallenge := waiting;
                showPermissionHelp := false |};
     editor := emptyEditor; toasts := []; sent := []; dispatched := [] |}.

(** The page before the first message. *)
Definition firstVisit : World := page (initialState "u0") "Hello" false.

(** A session in progress, at the technical questions. *)
Definition inSession : State :=
  {| userId := Some "user-u0"; sessionId := Some "s1";
     messages := [Msg.user "Hello"];
     loading := false; error := None; voiceMode := false;
     interviewStage := "technical_questions"; jobRoleData := None;
     currentCodingChallenge := None |}.

(** The same session once a response has put it in the coding challenge. *)
Definition inChallenge : State :=
  {| userId := Some "user-u0"; sessionId := Some "s1";
     messages := [Msg.user "Hello"];
     loading := false; error := None; voiceMode := false;
     interviewStage := "coding_challenge"; jobRoleData := None;
     currentCodingChallenge := Some twoSum |}.

(** A server whose stage controller follows the specification: it moves to
    the feedback stage on the challenge-complete signal only. *)
Definition feedback : Data.t :=
  {| Data.session_id := Some "s1"; Data.response := Some "Let us review your solution.";
     Data.interview_stage := Some "feedback";
     Data.coding_challenge_detail := None;
     Data.codingChallengeDetail := None; Data.tool_calls := None;
     Data.audio_response_url := None; Data.transcription := None;
     Data.hints := None |}.

Definition stillWaiting : Data.t :=
  {| Data.session_id := Some "s1"; Data.response := Some "Take your time.";
     Data.interview_stage := Some "coding_challenge_waiting";
     Data.coding_challenge_detail := None;
     Data.codingChallengeDetail := None; Data.tool_calls := None;
     Data.audio_response_url := None; Data.transcription := None;
     Data.hints := None |}.

Definition stageController (history : list Request) (r : Request) : Reply :=
  if String.eqb (request_url r) "/interview/s1/challenge-complete"
  then Ok feedback else Ok stillWaiting.

(** The editor with a challenge loaded and a solution typed in. *)
Definition editing (challenge : Challenge) (solution : string) : World :=
  {| ctx := inChallenge;
     chat := {| messageInput := ""; isWaitingForCodingChallenge := false;
                showPermissionHelp := false |};
     editor := {| Editor.currentChallengeDetails := Some challenge;
                  Editor.code := solution; Editor.language := "python";
                  Editor.evaluationResult := None;
                  Editor.isEvaluating := false |};
     toasts := []; sent := []; dispatched := [] |}.

Definition allPassed : Evaluation :=
  {| eval_status := Some "success"; eval_detail := None; error_message := None;
     overall_summary :=
       Some {| pass_count := Some 2; fail_count := Some 0;
               total_tests := Some 2; all_tests_passed := Some true |} |}.

(** A stand-in for [JSON.stringify] that keeps the names of the properties
    it writes: those of an object whose value is not undefined. *)
Definition writtenKeys (j : Js.Json) : string :=
  match j with
  | Js.JObj fields =>
      join (map fst (List.filter (fun kv =>
                                    match snd kv with
                                    | Js.JUndefined => false
                                    | _ => true
                                    end) fields)) ","
  | _ => ""
  end.

Definition grader (history : list Request) (r : Request) : FetchReply :=
  FetchResponse true allPassed.

(** A server that hands out the Two Sum challenge. *)
Definition challenged : Data.t :=
  {| Data.session_id := Some "s1"; Data.response := Some "Here is your challenge.";
     Data.interview_stage := Some "coding_challenge";
     Data.coding_challenge_detail := Some twoSum;
     Data.codingChallengeDetail := None; Data.tool_calls := None;
     Data.audio_response_url := None; Data.transcription := Some "I am ready";
     Data.hints := None |}.

Definition challenger (history : list Request) (r : Request) : Reply :=
  Ok challenged.

(** ** The interview page (pages/Interview.js) *)

(** [v === s] for a value that is a string or missing. *)
Definition js_equals (v : option string) (s : string) : bool :=
  match v with
  | Some x => String.eqb x s
  | None => false
  end.

(** [a !== b] for two values that are each a string or missing. *)
Definition strict_neq (a b : option string) : bool :=
  match a, b with
  | Some x, Some y => negb (String.eqb x y)
  | None, None => false
  | _, _ => true
  end.

(** What the main column of the page renders. *)
Inductive Panel :=
| JobRoleSelector
| EditorBesideChat
| LoadingChallenge
| ChatOnly.

(** The conditional of the render: the job role selector first, then the
    editor with the chat at its side when the stage is a coding stage and a
    challenge is set, a loading text when the stage is a coding stage and no
    challenge is set, and the chat alone otherwise. *)
Definition mainPanel (showJobSelector : bool) (st : State) : Panel :=
  if showJobSelector then JobRoleSelector
  else if is_coding_stage (interviewStage st)
          && is_some (currentCodingChallenge st)
  then EditorBesideChat
  else if is_coding_stage (interviewStage st)
          && negb (is_some (currentCodingChallenge st))
  then LoadingChallenge
  else ChatOnly.

Definition getStageBadgeColor (stage : string) : string :=
  if String.eqb stage "introduction" then "blue"
  else if String.eqb stage "technical_questions" then "purple"
  else if String.eqb stage "coding_challenge" then "orange"
  else if String.eqb stage "feedback" then "green"
  else if String.eqb stage "conclusion" then "red"
  else "gray".

Section InterviewPage.

Variables uuid0 uuid : string.

(** [api.get('/health')] as the page reads it: the [voice_processing]
    property of the answer, or the rejection of the call. *)
Variable getHealth : Outcome (option string).

(** The effect that adopts the session id of the URL. *)
Definition sessionEffect (urlSessionId : option string) : M unit :=
  rendered (fun st _ _ =>
    if Js.truthy urlSessionId && strict_neq urlSessionId (sessionId st)
    then
      dispatch uuid0 uuid (SET_SESSION_ID urlSessionId) >>
      toast "Session Loaded"
        (Some ("Resuming interview session: " +:+ Js.show urlSessionId)) "info"
    else ret tt).

Definition checkVoiceAvailability : M bool :=
  tryCatch
    (await voice_processing := lift getHealth in
     ret (js_equals voice_processing "available"))
    (fun error => ret false).

(** The effect that checks the voice service; its result is the value it
    hands to [setIsVoiceAvailable]. *)
Definition checkVoice : M bool :=
  rendered (fun st _ _ =>
    tryCatch
      (await isAvailable := checkVoiceAvailability in
       when (negb isAvailable && voiceMode st)
         (dispatch uuid0 uuid (SET_VOICE_MODE false) >>
          toast "Voice Mode Disabled"
            (Some "Voice processing is not available on the server.")
            "warning") >>
       ret isAvailable)
      (fun err =>
         dispatch uuid0 uuid
           (SET_ERROR (Some "Error checking voice availability")) >>
         ret false)).

(** The page's callback for a selected role. *)
Definition handleRoleSelect (roleData : option JobRole) : M unit :=
  dispatch uuid0 uuid (SET_JOB_ROLE_DATA roleData).

(** The page's callback for "Start Interview"; its result is the value it
    hands to [setShowJobSelector]. The page reads [selectedJobRole] off the
    context value, which has no such key. *)
Definition handleStartInterview : M bool :=
  let selectedJobRole : option JobRole := None in
  match selectedJobRole with
  | Some j =>
      toast "Interview Started"
        (Some ("Your interview for " +:+ Js.show (role_name j) +:+ " ("
               +:+ Js.show (seniority_level j) +:+ ") is ready to begin."))
        "success" >>
      ret false
  | None => ret false
  end.

(** "End Interview": the context is reset and a toast is shown (closing the
    dialog and navigating to the home page change nothing modelled here). *)
Definition handleEndInterview : M unit :=
  dispatch uuid0 uuid RESET >>
  toast "Interview Ended" (Some "Your interview has been completed.") "info".

End InterviewPage.

(** ** The page between two events

    A handler runs to its end, React renders, and the effects run until
    nothing changes; only then can the user act again. The chat
    (ChatInterface) is mounted from the start; the editor (CodingChallenge) is
    mounted while the page renders it, with the current challenge as its
    prop. *)

(** Whether the page renders the editor beside the chat. *)
Definition showsEditor (st : State) : bool :=
  match mainPanel false st with
  | EditorBesideChat => true
  | _ => false
  end.


Section Page.

Variable server : list Request -> Request -> Reply.
Variable authToken : option string.
Variables uuid0 uuid : string.




End Page.

(** The pages presented to the user between two events: the chat's waiting
    flag is clear and, while the page renders the editor, the editor holds a
    challenge and the stage is 'coding_challenge_waiting'. The first page is
    such a page, and the effects that follow a handler lead from such a page
    to such a page. *)
Definition Presented (w : World) : Prop :=
  isWaitingForCodingChallenge (chat w) = false
  /\ (showsEditor (ctx w) = true ->
      is_some (Editor.currentChallengeDetails (editor w)) = true
      /\ interviewStage (ctx w) = "coding_challenge_waiting").

(** ** The job role selector (components/JobRoleSelector.js) *)

Module Selector.

(** Local state of the selector. *)
Record t := {
  jobRoles : list JobRole;
  selectedRole : option JobRole;
  customDescription : string;
}.

(** The role object built for the 'custom' option. *)
Definition customRole : JobRole :=
  {| role_name := Some "Custom Role"; seniority_level := Some "Mid-level";
     required_skills := Some []; description := Some "" |}.

Section Handlers.

(** The props [onRoleSelect] and [onStartInterview], both given by the
    page; the result of the second is the page's [showJobSelector]
    afterwards. *)
Variable onRoleSelect : option JobRole -> M unit.
Variable onStartInterview : JobRole -> M bool.

(** The result of a handler that changes the local state is the local state
    it leaves. *)
Definition handleRoleChange (roleId : string) (s : t) : M t :=
  if String.eqb roleId "custom" then
    ret {| jobRoles := jobRoles s; selectedRole := Some customRole;
           customDescription := customDescription s |}
  else
    let selected :=
      List.find (fun role => js_equals (role_name role) roleId) (jobRoles s) in
    when (is_some selected) (onRoleSelect selected) >>
    ret {| jobRoles := jobRoles s; selectedRole := selected;
           customDescription := "" |}.

Definition handleDescriptionChange (value : string) (s : t) : M t :=
  match selectedRole s with
  | Some r =>
      let updatedRole :=
        {| role_name := role_name r; seniority_level := seniority_level r;
           required_skills := required_skills r;
           description := Some value |} in
      onRoleSelect (Some updatedRole) >>
      ret {| jobRoles := jobRoles s; selectedRole := Some updatedRole;
             customDescription := value |}
  | None =>
      ret {| jobRoles := jobRoles s; selectedRole := None;
             customDescription := value |}
  end.

(** Its result is the page's [showJobSelector] afterwards. *)
Definition handleStartInterview (s : t) (showJobSelector : bool) : M bool :=
  match selectedRole s with
  | None =>
      toast "No role selected"
        (Some "Please select a job role before starting the interview")
        "warning" >>
      ret showJobSelector
  | Some role => onStartInterview role
  end.

End Handlers.

End Selector.

(** ** Running code (components/CodingChallenge.js) *)

Module Run.

(** The JSON the server answers a run with, as far as the editor reads it. *)
Record result := {
  status : option string;
  stdout : option string;
  stderr : option string;
  detail : option string;
}.

(** The answer to the [fetch] of a run: a rejection, or a response with its
    [ok] flag, its HTTP status and its parsed body. *)
Inductive Reply :=
| Rejected (e : Err.t)
| Response (ok : bool) (http_status : Z) (body : result).

(** The local state of the editor that a run changes. *)
Record t := {
  shown_stdout : option string;
  shown_stderr : option string;
  isRunningCode : bool;
}.

Definition setIsRunningCode (b : bool) (s : t) : t :=
  {| shown_stdout := shown_stdout s; shown_stderr := shown_stderr s;
     isRunningCode := b |}.

End Run.

Section Runner.

Variable runServer : list Request -> Request -> Run.Reply.
Variable authToken : option string.
Variable JSON_stringify : Js.Json -> string.

Definition run_post (url authorization body : string)
    : M (bool * Z * Run.result) :=
  fun w =>
    let r := FetchPost url authorization body in
    match runServer (sent w) r with
    | Run.Response ok http_status result =>
        (log_request r w, Returned (ok, http_status, result))
    | Run.Rejected e => (log_request r w, Thrown e)
    end.

(** The object handed to [JSON.stringify] by a run. *)
Definition runBody (st : State) (ed : Editor.t) (stdin : string)
    : list (string * Js.Json) :=
  [("language", Js.JStr (Editor.language ed));
   ("code", Js.JStr (Editor.code ed));
   ("input_str", Js.JStr stdin);
   ("session_id", Js.of_string (sessionId st))].

(** The handler of "Run Code"; its result is the local state it leaves
    ([stdout], [stderr], [isRunningCode]), [run] being the one it found. The
    [finally] that clears [isRunningCode] is the last step, the [catch]
    block being unable to throw. *)
Definition handleRunCode (stdin : string) (run : Run.t) : M Run.t :=
  rendered (fun st _ ed =>
    if String.eqb (Js.trim (Editor.code ed)) "" then
      toast "Empty Code" (Some "Please write some code before running.")
        "warning" >>
      ret run
    else
      let running :=
        {| Run.shown_stdout := Some ""; Run.shown_stderr := Some "";
           Run.isRunningCode := true |} in
      toast "Running Code..." None "info" >>
      if negb (Js.truthy authToken) then
        toast_closeAll >>
        toast "Authentication Error"
          (Some "Auth token not found. Please log in.") "error" >>
        ret (Run.setIsRunningCode false running)
      else
        await finished :=
          tryCatch
            (await reply :=
               run_post "/api/coding/run" ("Bearer " +:+ Js.show authToken)
                 (JSON_stringify (Js.JObj (runBody st ed stdin))) in
             let '(ok, http_status, result) := reply in
             toast_closeAll >>
             if negb ok then
               throw (Err.new
                 (if Js.truthy (Run.detail result)
                  then Js.show (Run.detail result)
                  else "Server error: " +:+ pretty http_status))
             else
               (if js_equals (Run.status result) "success"
                then toast "Execution Successful" None "success"
                else toast "Execution Finished with Errors"
                       (Some (if Js.truthy (Run.stderr result)
                              then "Check the STDERR output for details."
                              else "An unknown error occurred."))
                       "error") >>
               ret {| Run.shown_stdout := Run.stdout result;
                      Run.shown_stderr := Run.stderr result;
                      Run.isRunningCode := true |})
            (fun error =>
               toast_closeAll >>
               toast "Error Running Code"
                 (Some (if negb (String.eqb (Err.message error) "")
                        then Err.message error
                        else "Could not connect to the server."))
                 "error" >>
               ret {| Run.shown_stdout := Some "";
                      Run.shown_stderr :=
                        Some (if negb (String.eqb (Err.message error) "")
                              then Err.message error
                              else "An unexpected error occurred.");
                      Run.isRunningCode := true |}) in
        ret (Run.setIsRunningCode false finished)).

End Runner.

(** ** The results tab (components/CodingChallenge.js) *)

(** One entry of [test_results], as far as the accordion of detailed test
    cases reads it to open its items: the [passed] property. *)
Record TestResult := { passed : option bool }.

(** [test_results.reduce((acc, tc, index) => tc.passed === false ?
    [...acc, index] : acc, [])], the reduction being at [index] with the
    accumulator [acc]. *)
Fixpoint reduceFrom (index : nat) (acc : list nat)
    (test_results : list TestResult) : list nat :=
  match test_results with
  | [] => acc
  | tc :: rest =>
      reduceFrom (S index)
        (match passed tc with
         | Some false => acc ++ [index]
         | _ => acc
         end) rest
  end.

(** The [defaultIndex] of the accordion. *)
Definition defaultIndex (test_results : list TestResult) : list nat :=
  reduceFrom 0 [] test_results.

(** ** The keys of the context state *)

(** The keys of the state that the reducer's case for an action overrides:
    one key for each setter and for ADD_MESSAGE, every key for RESET, none
    for an unknown action. *)
Inductive Key :=
| KUserId | KSessionId | KMessages | KLoading | KError | KVoiceMode
| KInterviewStage | KJobRoleData | KCurrentCodingChallenge.

Definition overrides (a : Action) : list Key :=
  match a with
  | SET_USER_ID _ => [KUserId]
  | SET_SESSION_ID _ => [KSessionId]
  | SET_MESSAGES _ | ADD_MESSAGE _ => [KMessages]
  | SET_LOADING _ => [KLoading]
  | SET_ERROR _ => [KError]
  | SET_VOICE_MODE _ => [KVoiceMode]
  | SET_INTERVIEW_STAGE _ => [KInterviewStage]
  | SET_JOB_ROLE_DATA _ => [KJobRoleData]
  | SET_CURRENT_CODING_CHALLENGE _ => [KCurrentCodingChallenge]
  | RESET =>
      [KUserId; KSessionId; KMessages; KLoading; KError; KVoiceMode;
       KInterviewStage; KJobRoleData; KCurrentCodingChallenge]
  | OTHER => []
  end.

Definition Key_eqb (a b : Key) : bool :=
  match a, b with
  | KUserId, KUserId | KSessionId, KSessionId | KMessages, KMessages
  | KLoading, KLoading | KError, KError | KVoiceMode, KVoiceMode
  | KInterviewStage, KInterviewStage | KJobRoleData, KJobRoleData
  | KCurrentCodingChallenge, KCurrentCodingChallenge => true
  | _, _ => false
  end.

(** Two actions that override no common key. *)
Definition independent (a b : Action) : bool :=
  forallb (fun k => negb (existsb (Key_eqb k) (overrides b))) (overrides a).

(** ** Authentication (context/AuthContext.js, components/ProtectedRoute.js,
    api/authService.js, pages/LoginPage.js) *)

(** The claims of a decoded token that the provider reads. *)
Module Jwt.
Record payload := {
  user_id : option string;
  sub : option string;
  email : option string;
}.
End Jwt.

Module Auth.

(** The user object of the context: [{id, email}]. *)
Record User := {
  id : option string;
  email : option string;
}.

(** The state of the provider together with the [authToken] entry of local
    storage, which it keeps in step. *)
Record t := {
  storage : option string;
  token : option string;
  user : option User;
  isLoading : bool;
}.

Section Provider.

(** [decodeJwt]: the payload of the token, or null when splitting, decoding
    or parsing it throws. *)
Variable decodeJwt : string -> option Jwt.payload.

(** The state a provider is mounted with: the token read from local storage,
    no user, loading. *)
Definition mount (stored : option string) : t :=
  {| storage := stored; token := stored; user := None; isLoading := true |}.

(** The effect run once after mounting. *)
Definition attemptAutoLogin (s : t) : t :=
  let s :=
    if Js.truthy (storage s) then
      match decodeJwt (Js.show (storage s)) with
      | Some decodedPayload =>
          {| storage := storage s; token := storage s;
             user := Some {| id := Js.or (Jwt.user_id decodedPayload)
                                     (Jwt.sub decodedPayload);
                             email := Jwt.email decodedPayload |};
             isLoading := isLoading s |}
      | None =>
          {| storage := None; token := None; user := None;
             isLoading := isLoading s |}
      end
    else
      {| storage := storage s; token := token s; user := None;
         isLoading := isLoading s |} in
  {| storage := storage s; token := token s; user := user s;
     isLoading := false |}.

Definition login (newToken : string) (initialUserData : option User) (s : t)
    : t :=
  {| storage := Some newToken;
     token := Some newToken;
     user :=
       match decodeJwt newToken with
       | Some decodedPayload =>
           Some {| id := Js.or (Jwt.user_id decodedPayload)
                           (Jwt.sub decodedPayload);
                   email := Js.or (Jwt.email decodedPayload)
                              (initialUserData ≫= email) |}
       | None =>
           match initialUserData with
           | Some u => Some u
           | None => None
           end
       end;
     isLoading := isLoading s |}.

Definition logout (s : t) : t :=
  {| storage := None; token := None; user := None; isLoading := isLoading s |}.

End Provider.

End Auth.

(** What a protected route renders. *)
Inductive Route := Spinner | NavigateToLogin | Children.

Definition ProtectedRoute (auth : Auth.t) : Route :=
  if Auth.isLoading auth then Spinner
  else if negb (Js.truthy (Auth.token auth)) || negb (is_some (Auth.user auth))
  then NavigateToLogin
  else Children.

(** The answer to [authApi.post('/token', params)]: the [access_token] of
    the data, or the [response?.data?.detail] of the error. *)
Inductive AuthReply :=
| AuthOk (access_token : option string)
| AuthFail (detail : option string).

Module Login.

(** Local state of LoginPage, and where it has navigated to. *)
Record t := {
  email : string;
  password : string;
  error : string;
  isLoading : bool;
  navigated : option string;
}.

Section Page.

Variable decodeJwt : string -> option Jwt.payload.

(** The server behind /api/v1/auth/token, given the [username] and
    [password] form fields. *)
Variable authServer : string -> string -> AuthReply.

Definition loginUser (email password : string) : Outcome (option string) :=
  match authServer email password with
  | AuthOk access_token => Returned access_token
  | AuthFail detail =>
      Thrown (Err.new
        (if Js.truthy detail then Js.show detail
         else "Login failed. Please check your credentials or network."))
  end.

(** [from] is [location.state?.from?.pathname || "/interview"]. *)
Definition handleSubmit (from : string) (page : t) (auth : Auth.t)
    : t * Auth.t :=
  let fail msg :=
    {| email := email page; password := password page; error := msg;
       isLoading := true; navigated := navigated page |} in
  let '(page', auth') :=
    match loginUser (email page) (password page) with
    | Returned access_token =>
        if Js.truthy access_token then
          ({| email := email page; password := password page; error := "";
              isLoading := true; navigated := Some from |},
           Auth.login decodeJwt (Js.show access_token)
             (Some {| Auth.id := None; Auth.email := Some (email page) |})
             auth)
        else
          (fail "Login failed: No access token received from server.", auth)
    | Thrown err =>
        (fail (if negb (String.eqb (Err.message err) "") then Err.message err
               else "Login failed. Please check your credentials."),
         auth)
    end in
  ({| email := email page'; password := password page'; error := error page';
      isLoading := false; navigated := navigated page' |}, auth').

End Page.

End Login.

(** ** More sample worlds *)

(** A server that keeps the session waiting on its challenge. *)
Definition patient (history : list Request) (r : Request) : Reply :=
  Ok stillWaiting.

(** The page of the session in its coding challenge once the editor has
    loaded the challenge and the effects have run, with a message typed in. *)
Definition settledChat : World :=
  set_chat (fun c =>
      {| messageInput := "How much time do I have?";
         isWaitingForCodingChallenge := isWaitingForCodingChallenge c;
         showPermissionHelp := showPermissionHelp c |})
    (fst (waitingEffect (fst (stageEffect "u0" "u1" (editing twoSum ""))))).

(** The page of that session once the candidate has typed a solution and
    submitted it, and the server has graded it. *)
Definition submitted : World :=
  let settled :=
    fst (waitingEffect (fst (stageEffect "u0" "u1" (editing twoSum "")))) in
  let typed := fst (setCode "print(1)" settled) in
  fst (handleSubmit grader (Some "token") writtenKeys typed).

Definition backend : JobRole :=
  {| role_name := Some "Backend Developer"; seniority_level := Some "Senior";
     required_skills := Some ["Python"]; description := Some "APIs" |}.

(** The selector once the roles have been fetched. *)
Definition roleList : Selector.t :=
  {| Selector.jobRoles := [backend]; Selector.selectedRole := None;
     Selector.customDescription := "" |}.

(** A decoder that accepts the token 'header.payload.signature' only. *)
Definition sampleDecoder (token : string) : option Jwt.payload :=
  if String.eqb token "header.payload.signature"
  then Some {| Jwt.user_id := None; Jwt.sub := Some "alice";
               Jwt.email := None |}
  else None.

(** A provider that has finished loading, with nobody signed in. *)
Definition signedOut : Auth.t :=
  {| Auth.storage := None; Auth.token := None; Auth.user := None;
     Auth.isLoading := false |}.

(** ** Calls of the service layer *)

(** A call of a service function is single-shot when, from every world, it
    either throws before anything is sent, or sends exactly one request and
    then returns what the server answered or throws; in both cases nothing
    of the page is touched and a thrown error carries a message. *)
Definition SingleShot {A} (server : list Request -> Request -> Reply)
    (m : M A) : Prop :=
  forall w,
    (fst (m w) = w
     /\ exists e, snd (m w) = Thrown e /\ Err.message e <> "")
    \/ exists r,
         fst (m w) = log_request r w
         /\ match snd (m w) with
            | Returned _ => exists data, server (sent w) r = Ok data
            | Thrown e => Err.message e <> ""
            end.

(** ** The session store

    The interview sessions themselves live on the server, which is not part
    of these sources; the store is modelled from the specification
    (sections 3 and 6). *)

Module SessionStore.

(** Modelled from the spec: the Stage enumeration of section 4.1 (the server's
    stage controller is missing from the sources). *)
Inductive Stage :=
| Greeting | Introduction | TechnicalQA | CodingChallengeSetup
| CodingChallenge | CodingChallengeWaiting | Feedback | Conclusion.

(** Modelled from the spec: the role of a message of section 3. *)
Inductive Role := User | Assistant | Tool.

(** Modelled from the spec: the status of a session of section 3. *)
Inductive Status := Active | Completed | Abandoned.

(** Modelled from the spec: one entry of [messages] (role, content, optional
    tool-call descriptors). *)
Record Message := {
  role : Role;
  content : string;
  tool_calls : list string;
}.

(** Modelled from the spec: the InterviewSession aggregate of section 3 (the
    server's session type is missing from the sources). *)
Record InterviewSession := {
  session_id : string;
  user_id : string;
  created_at : Z;
  status : Status;
  messages : list Message;
  stage : Stage;
  suspended : bool;
}.

(** Modelled from the spec: the persisted state layout of section 6, one
    record per session id. *)
Abbreviation Store := (gmap string InterviewSession).

(** Modelled from the spec: the [ok/err] a save answers with. *)
Inductive SaveResult :=
| SaveOk (store : Store)
| SaveErr.

Section Store.

(** Whether the backing storage accepts a write (a refused write is the
    PersistenceError of section 7). *)
Variable accepts : Store -> InterviewSession -> bool.

(** Modelled from the spec: [load(session_id) -> InterviewSession?] of the
    Session Store API (the server's store is missing from the sources). *)
Definition load (sid : string) (store : Store) : option InterviewSession :=
  store !! sid.

(** Modelled from the spec: [save(InterviewSession) -> ok/err] of the Session
    Store API: the record kept under the session's id is replaced by the
    session, or the write is refused. *)
Definition save (s : InterviewSession) (store : Store) : SaveResult :=
  if accepts store s then SaveOk (<[session_id s := s]> store) else SaveErr.

End Store.

(** A session with two messages, waiting on its coding challenge. *)
Definition sample : InterviewSession :=
  {| session_id := "s1"; user_id := "user-u0"; created_at := 0;
     status := Active;
     messages := [ {| role := User; content := "Hello"; tool_calls := [] |};
                   {| role := Assistant; content := "Welcome"; tool_calls := [] |} ];
     stage := CodingChallengeWaiting; suspended := true |}.

End SessionStore.

(** ** The stage controller

    The controller runs on the server, which is not part of these sources; it
    is modelled from the specification (section 4.1). *)

Module StageController.






End StageController.

(** ** The agent loop

    The loop runs on the server, which is not part of these sources, and the
    messages of the client carry no identity; the loop's rule for replayed
    messages is modelled from the specification (sections 3 and 4.2). *)

Module AgentLoop.

(** Modelled from the spec: an inbound message of section 4.2 with the
    identity by which a replay is detected (the server's agent loop is
    missing from the sources). *)
Record Inbound := {
  identity : string;
  text : string;
}.

(** Modelled from the spec: an entry of [messages] of section 3, with the
    identity of the inbound message it records when it records one (the
    server's message type is missing from the sources). *)
Record Entry := {
  inbound : option string;
  message : SessionStore.Message;
}.

(** Modelled from the spec: what a turn of the agent loop changes of the
    InterviewSession of section 3 (the server's session type is missing from
    the sources). *)
Record Session := {
  entries : list Entry;
  stage : SessionStore.Stage;
}.

(** The entry an inbound message is appended as. *)
Definition entry_of (m : Inbound) : Entry :=
  {| inbound := Some (identity m);
     message := {| SessionStore.role := SessionStore.User;
                   SessionStore.content := text m;
                   SessionStore.tool_calls := [] |} |}.

Section Loop.

(** Steps 2 to 4 of the algorithm, the reasoning service and the tool
    registry behind them: the entries a turn appends after the inbound
    message (tool results, then the assistant's message) and the stage it
    leaves, given the history and the stage. *)
Variable resolve :
  list Entry -> SessionStore.Stage -> list Entry * SessionStore.Stage.

(** Modelled from the spec: whether the session already contains the inbound
    message as its last message, by identity (the server's agent loop is
    missing from the sources). *)
Definition replayed (s : Session) (m : Inbound) : bool :=
  match last (entries s) with
  | Some e =>
      match inbound e with
      | Some i => String.eqb i (identity m)
      | None => false
      end
  | None => false
  end.

(** Modelled from the spec: one turn of the agent loop of section 4.2 under
    its idempotence rule (the server's agent loop is missing from the
    sources). A replayed message is a no-op; any other is appended and the
    turn is resolved. The second component counts the turns resolved. *)
Definition handle_message (s : Session) (m : Inbound) : Session * nat :=
  if replayed s m then (s, 0%nat)
  else
    let appended := entries s ++ [entry_of m] in
    let '(more, stage') := resolve appended (stage s) in
    ({| entries := appended ++ more; stage := stage' |}, 1%nat).

End Loop.

(** A session whose last message is the inbound message 'm1'. *)
Definition sample : Session :=
  {| entries :=
       [ {| inbound := None;
            message := {| SessionStore.role := SessionStore.Assistant;
                          SessionStore.content := "Welcome";
                          SessionStore.tool_calls := [] |} |};
         entry_of {| identity := "m1"; text := "Hello" |} ];
     stage := SessionStore.Introduction |}.

(** A reasoning service that answers every turn with one message and leaves
    the stage as it is. *)
Definition echo (history : list Entry) (stage : SessionStore.Stage)
    : list Entry * SessionStore.Stage :=
  ([ {| inbound := None;
        message := {| SessionStore.role := SessionStore.Assistant;
                      SessionStore.content := "Go on";
                      SessionStore.tool_calls := [] |} |} ], stage).

End AgentLoop.

(** * Properties *)

(** ** The reducer *)

Lemma reducer_messages uuid0 fresh st a :
  messages (reducer uuid0 fresh st a) =
  match a with
  | SET_MESSAGES p => p
  | ADD_MESSAGE p => messages st ++ [p]
  | RESET => []
  | _ => messages st
  end.
Proof. destruct a; reflexivity. Qed.

(** C10: dispatching RESET returns the context state to its initial value
    (sessionId null, messages empty, loading false, error null, voiceMode
    false, interviewStage 'introduction', jobRoleData null,
    currentCodingChallenge null), whatever the state was, except for userId,
    which becomes 'user-' followed by the uuid generated during the
    reduction. *)
Theorem reset_restores_initial_state (uuid0 fresh : string) (st : State) :
  reducer uuid0 fresh st RESET =
    {| userId := Some ("user-" +:+ fresh);
       sessionId := None;
       messages := [];
       loading := false;
       error := None;
       voiceMode := false;
       interviewStage := "introduction";
       jobRoleData := None;
       currentCodingChallenge := None |}
  /\ reducer uuid0 fresh st RESET =
       reducer uuid0 fresh (initialState uuid0) (SET_USER_ID (Some ("user-" +:+ fresh))).
Proof. split; reflexivity. Qed.

(** ** Strings *)

Lemma behead_shorter s r :
  Js.behead s = Some r -> (String.length r < String.length s)%nat.
Proof.
  unfold Js.behead. destruct s as [|c0 [|c1 [|c2 r2]]]; try discriminate;
    repeat (match goal with
            | |- context [if ?b then _ else _] => destruct b
            end); intros [= <-]; simpl; lia.
Qed.

Ltac by_bytes s :=
  let c0 := fresh "c" in let r0 := fresh "r" in
  let c1 := fresh "c" in let r1 := fresh "r" in
  let c2 := fresh "c" in let r2 := fresh "r" in
  destruct s as [|c0 r0]; [reflexivity|]; simpl;
  destruct (Js.space1 c0); [reflexivity|];
  destruct r0 as [|c1 r1]; [reflexivity|];
  destruct (Js.space2 c0 c1); [reflexivity|];
  destruct r1 as [|c2 r2]; [reflexivity|];
  destruct (Js.space3 c0 c1 c2); reflexivity.

Lemma trimStart_behead s :
  Js.trimStart s =
  match Js.behead s with Some r => Js.trimStart r | None => s end.
Proof. by_bytes s. Qed.

Lemma whitespace_only_behead s :
  Js.whitespace_only s =
  match s with
  | EmptyString => true
  | _ => match Js.behead s with
         | Some r => Js.whitespace_only r
         | None => false
         end
  end.
Proof. by_bytes s. Qed.

Lemma behead_ind (P : string -> Prop) :
  (forall s, (forall r, Js.behead s = Some r -> P r) -> P s) ->
  forall s, P s.
Proof.
  intros step s.
  assert (H : forall n s, (String.length s < n)%nat -> P s).
  { induction n as [|n IH]; intros s' Hn; [lia|].
    apply step. intros r Hr. apply IH.
    apply behead_shorter in Hr. lia. }
  apply (H (S (String.length s))). lia.
Qed.

Lemma whitespace_only_trimStart s :
  Js.whitespace_only (Js.trimStart s) = Js.whitespace_only s.
Proof.
  induction s as [s IH] using behead_ind.
  rewrite trimStart_behead, (whitespace_only_behead s).
  destruct (Js.behead s) as [r|] eqn:Hr.
  - rewrite (IH r eq_refl). destruct s; [discriminate|reflexivity].
  - rewrite (whitespace_only_behead s), Hr. reflexivity.
Qed.

Lemma trimStart_whitespace s :
  Js.whitespace_only s = true -> Js.trimStart s = "".
Proof.
  induction s as [s IH] using behead_ind.
  rewrite trimStart_behead, whitespace_only_behead.
  destruct s as [|c r]; [reflexivity|].
  destruct (Js.behead (String c r)) as [r'|] eqn:Hr; [|discriminate].
  now apply IH.
Qed.

Lemma trimEnd_empty_iff s :
  Js.trimEnd s = "" <-> Js.whitespace_only s = true.
Proof.
  destruct s as [|c r]; [simpl; tauto|].
  cbn [Js.trimEnd]. destruct (Js.whitespace_only (String c r));
    split; try reflexivity; discriminate.
Qed.

(** [s.trim() === ''] holds exactly for the strings made of white space. *)
Lemma trim_empty_iff s :
  String.eqb (Js.trim s) "" = true <-> Js.whitespace_only s = true.
Proof.
  unfold Js.trim. rewrite String.eqb_eq, trimEnd_empty_iff.
  now rewrite whitespace_only_trimStart.
Qed.

Lemma code_missing_iff code :
  code_missing code = true <->
  code = None \/ exists s, code = Some s /\ Js.whitespace_only s = true.
Proof.
  unfold code_missing. destruct code as [s|]; simpl.
  - rewrite orb_true_iff, negb_true_iff, negb_false_iff, trim_empty_iff.
    split.
    + intros [H| H]; right; exists s; split; auto.
      apply String.eqb_eq in H. subst s. reflexivity.
    + intros [H|(s' & [= <-] & H)]; [discriminate | auto].
  - split; auto.
Qed.

Example trim_examples :
  Js.trim "  print(1) " = "print(1)"
  /\ Js.trim (String (ascii_of_nat 9) (String (ascii_of_nat 10) " ")) = ""
  /\ Js.trim "" = ""
  /\ Js.trim (String (ascii_of_nat 194) (String (ascii_of_nat 160)
               (String (ascii_of_nat 239) (String (ascii_of_nat 187)
                  (String (ascii_of_nat 191) ""))))) = ""
  /\ Js.trim (String (ascii_of_nat 226) (String (ascii_of_nat 128)
               (String (ascii_of_nat 168)
                  ("x y" +:+ String (ascii_of_nat 227)
                     (String (ascii_of_nat 128)
                        (String (ascii_of_nat 128) " ")))))) = "x y".
Proof. repeat split; reflexivity. Qed.

(** ** The service layer *)

Section ServiceProperties.

Variable server : list Request -> Request -> Reply.
Variable authToken : option string.
Variable now : Z.

Lemma truthy_show v : Js.truthy v = true -> Js.show v <> "".
Proof.
  destruct v as [s|]; simpl; [|discriminate].
  intros H%negb_true_iff%String.eqb_neq. exact H.
Qed.

Lemma truthy_Some v : Js.truthy v = true -> v = Some (Js.show v).
Proof. destruct v; simpl; [reflexivity | discriminate]. Qed.

Lemma apiErrorMessage_not_empty error customMessage :
  apiErrorMessage error customMessage <> "".
Proof.
  unfold apiErrorMessage.
  destruct (Err.response error); [discriminate|].
  destruct (Err.request error); [discriminate|].
  destruct (String.eqb (Err.message error) "") eqn:Hm; simpl.
  - destruct (Js.truthy customMessage) eqn:Hc; [|discriminate].
    now apply truthy_show.
  - now apply String.eqb_neq.
Qed.

Lemma handleApiError_throws {A} error customMessage w :
  @handleApiError A error customMessage w
  = (w, Thrown (enhancedError error customMessage)).
Proof. reflexivity. Qed.

Lemma api_post_run url body timeout w :
  api_post server authToken url body timeout w =
  let r := AxiosPost url (authorizationHeader authToken) body timeout in
  (log_request r w,
   match server (sent w) r with
   | Ok data => Returned data
   | Fail e => Thrown (responseInterceptor e)
   end).
Proof. unfold api_post. simpl. destruct (server _ _); reflexivity. Qed.

Lemma startInterview_run message userId jobRole w :
  startInterview server authToken message userId jobRole w =
  let r := AxiosPost "/interview" (authorizationHeader authToken)
             ([("message", Js.JStr message); ("user_id", Js.of_string userId)]
              ++ jobRoleFields jobRole) default_timeout in
  (log_request r w,
   match server (sent w) r with
   | Ok data => Returned (Data.with_detail data)
   | Fail e =>
       Thrown (enhancedError (responseInterceptor e)
                 (Some "Failed to start interview"))
   end).
Proof.
  unfold startInterview, tryCatch, bind. rewrite api_post_run. simpl.
  destruct (server _ _); reflexivity.
Qed.

Lemma continueInterview_run message sessionId userId jobRole w :
  continueInterview server authToken message sessionId userId jobRole w =
  if negb (Js.truthy sessionId) then
    (w, Thrown (enhancedError (Err.new "Session ID is required")
                  (Some "Failed to continue interview")))
  else if negb (Js.truthy userId) then
    (w, Thrown (enhancedError (Err.new "User ID is required")
                  (Some "Failed to continue interview")))
  else
    let r := AxiosPost ("/interview/" +:+ Js.show sessionId)
               (authorizationHeader authToken)
               ([("message", Js.JStr message); ("user_id", Js.of_string userId)]
                ++ jobRoleFields jobRole) default_timeout in
    (log_request r w,
     match server (sent w) r with
     | Ok data => Returned (Data.with_detail data)
     | Fail e =>
         Thrown (enhancedError (responseInterceptor e)
                   (Some "Failed to continue interview"))
     end).
Proof.
  unfold continueInterview, tryCatch, bind.
  destruct (negb (Js.truthy sessionId)); [reflexivity|].
  destruct (negb (Js.truthy userId)); [reflexivity|].
  rewrite api_post_run. simpl. destruct (server _ _); reflexivity.
Qed.

Lemma continueAfterCodingChallenge_run message sessionId userId completed w :
  continueAfterCodingChallenge server authToken message sessionId userId
    completed w =
  if negb (Js.truthy sessionId) then
    (w, Thrown (enhancedError (Err.new "Session ID is required")
                  (Some "Failed to continue after challenge")))
  else if negb (Js.truthy userId) then
    (w, Thrown (enhancedError (Err.new "User ID is required")
                  (Some "Failed to continue after challenge")))
  else
    let r := AxiosPost ("/interview/" +:+ Js.show sessionId +:+ "/challenge-complete")
               (authorizationHeader authToken)
               [("message", Js.JStr message);
                ("user_id", Js.of_string userId);
                ("challenge_completed", Js.JBool completed)] default_timeout in
    (log_request r w,
     match server (sent w) r with
     | Ok data => Returned data
     | Fail e =>
         Thrown (enhancedError (responseInterceptor e)
                   (Some "Failed to continue after challenge"))
     end).
Proof.
  unfold continueAfterCodingChallenge, tryCatch.
  destruct (negb (Js.truthy sessionId)); [reflexivity|].
  destruct (negb (Js.truthy userId)); [reflexivity|].
  rewrite api_post_run. simpl. destruct (server _ _); reflexivity.
Qed.

Lemma submitChallengeCode_run challengeId code userId sessionId w :
  submitChallengeCode server authToken challengeId code userId sessionId w =
  if negb (Js.truthy challengeId) then
    (w, Thrown (enhancedError (Err.new "Challenge ID is required")
                  (Some "Failed to submit code solution")))
  else if code_missing code then
    (w, Thrown (enhancedError (Err.new "Code solution is required")
                  (Some "Failed to submit code solution")))
  else
    let r := AxiosPost "/coding/submit" (authorizationHeader authToken)
               [("challenge_id", Js.of_string challengeId);
                ("code", Js.of_string code);
                ("user_id", Js.of_string userId);
                ("session_id", Js.of_string sessionId)] default_timeout in
    (log_request r w,
     match server (sent w) r with
     | Ok data => Returned data
     | Fail e =>
         Thrown (enhancedError (responseInterceptor e)
                   (Some "Failed to submit code solution"))
     end).
Proof.
  unfold submitChallengeCode, tryCatch.
  destruct (negb (Js.truthy challengeId)); [reflexivity|].
  destruct (code_missing code); [reflexivity|].
  rewrite api_post_run. simpl. destruct (server _ _); reflexivity.
Qed.

Lemma formattedAudioData_prefix audio :
  Js.startsWith (formattedAudioData audio) "data:audio/" = true.
Proof.
  unfold formattedAudioData.
  destruct (Js.startsWith audio "data:audio/") eqn:H; simpl; [exact H|].
  reflexivity.
Qed.

Lemma transcribeAndRespond_run audio userId sessionId jobRole w :
  transcribeAndRespond server authToken now audio userId sessionId jobRole w =
  if negb (Js.truthy audio) then
    (w, Thrown (enhancedError (Err.new "Audio data is required")
                  (Some "Failed to process voice input")))
  else
    let r := AxiosPost "/audio/transcribe" (authorizationHeader authToken)
               ([("audio_data", Js.JStr (formattedAudioData (Js.show audio)));
                 ("user_id",
                  Js.JStr (if Js.truthy userId then Js.show userId
                           else "anon-" +:+ pretty now));
                 ("session_id", Js.of_string sessionId);
                 ("sample_rate", Js.JNum 16000);
                 ("channels", Js.JNum 1)] ++ jobRoleFields jobRole) 60000 in
    (log_request r w,
     match server (sent w) r with
     | Ok data =>
         if negb (Js.truthy (Data.transcription data))
         then Thrown (enhancedError
                        (Err.new "Invalid response from transcription service")
                        (Some "Failed to process voice input"))
         else Returned data
     | Fail e =>
         let error := responseInterceptor e in
         match Err.response error with
         | Some r =>
             if status r =? 501 then Thrown voiceUnavailableError
             else if status r =? 422 then Thrown noSpeechError
             else Thrown (enhancedError error
                            (Some "Failed to process voice input"))
         | None =>
             Thrown (enhancedError error (Some "Failed to process voice input"))
         end
     end).
Proof.
  unfold transcribeAndRespond, tryCatch.
  destruct (negb (Js.truthy audio)); [reflexivity|].
  unfold bind. rewrite api_post_run. cbv zeta.
  destruct (server _ _) as [data|e]; cbn [fst snd].
  - destruct (negb (Js.truthy (Data.transcription data))); reflexivity.
  - unfold throw. destruct (Err.response (responseInterceptor e)) as [r|];
      [|reflexivity].
    destruct (status r =? 501); [reflexivity|].
    destruct (status r =? 422); reflexivity.
Qed.

(** C9: for a non-empty audio input the transcription request carries an
    audio_data that begins with 'data:audio/': the input itself when it
    already begins so, and 'data:audio/wav;base64,' followed by the input
    otherwise; a missing or empty input throws 'Audio data is required' and
    no request is sent. *)
Theorem transcribe_sends_data_uri (audio userId sessionId : option string)
    (jobRole : option JobRole) (w : World) :
  let r := transcribeAndRespond server authToken now audio userId sessionId
             jobRole w in
  match audio with
  | Some s =>
      if String.eqb s "" then
        sent (fst r) = sent w
        /\ exists e, snd r = Thrown e /\ Err.message e = "Audio data is required"
      else
        (exists rest,
           sent (fst r) =
           sent w ++ [AxiosPost "/audio/transcribe"
                        (authorizationHeader authToken)
                        (("audio_data", Js.JStr (formattedAudioData s)) :: rest)
                        60000])
        /\ Js.startsWith (formattedAudioData s) "data:audio/" = true
        /\ formattedAudioData s =
             (if Js.startsWith s "data:audio/" then s
              else "data:audio/wav;base64," +:+ s)
  | None =>
      sent (fst r) = sent w
      /\ exists e, snd r = Thrown e /\ Err.message e = "Audio data is required"
  end.
Proof.
  cbv zeta. rewrite transcribeAndRespond_run.
  destruct audio as [s|]; simpl.
  - destruct (String.eqb s "") eqn:Hs; simpl.
    + split; [reflexivity|]. eexists; split; reflexivity.
    + split; [eexists; reflexivity|].
      split; [apply formattedAudioData_prefix|].
      unfold formattedAudioData.
      destruct (Js.startsWith s "data:audio/"); reflexivity.
  - split; [reflexivity|]. eexists; split; reflexivity.
Qed.

End ServiceProperties.

(** ** Traces of the handlers *)

Section Traces.

Variable server : list Request -> Request -> Reply.
Variable fetchServer : list Request -> Request -> FetchReply.
Variable authToken : option string.
Variable now : Z.
Variables uuid0 uuid : string.

Local Abbreviation traced := (Traced uuid0 uuid).

Lemma traced_silent {A} (m : M A) :
  (forall w, ctx (fst (m w)) = ctx w /\ dispatched (fst (m w)) = dispatched w) ->
  traced m.
Proof.
  intros H w. exists []. destruct (H w) as [-> ->].
  rewrite app_nil_r. auto.
Qed.

Lemma traced_ret {A} (a : A) : traced (ret a).
Proof. apply traced_silent. auto. Qed.

Lemma traced_throw {A} e : traced (@throw A e).
Proof. apply traced_silent. auto. Qed.

Lemma traced_lift {A} (o : Outcome A) : traced (lift o).
Proof. apply traced_silent. auto. Qed.

Lemma traced_handleApiError {A} e c : traced (@handleApiError A e c).
Proof. apply traced_throw. Qed.

Lemma traced_set_chat f : traced (modify (set_chat f)).
Proof. apply traced_silent. auto. Qed.

Lemma traced_set_editor f : traced (modify (set_editor f)).
Proof. apply traced_silent. auto. Qed.

Lemma traced_set_toasts f : traced (modify (set_toasts f)).
Proof. apply traced_silent. auto. Qed.

Lemma traced_api_post url body timeout :
  traced (api_post server authToken url body timeout).
Proof.
  apply traced_silent. intros w. rewrite api_post_run. auto.
Qed.

Lemma traced_dispatch a : append_only a = true -> traced (dispatch uuid0 uuid a).
Proof.
  intros Ha w. exists [a]. simpl. auto.
Qed.

Lemma traced_then {A B} (m : M A) (f : M B) :
  traced m ->
  traced f ->
  forall w, exists acts,
    dispatched (fst (f (fst (m w)))) = dispatched w ++ acts
    /\ ctx (fst (f (fst (m w)))) = foldl (reducer uuid0 uuid) (ctx w) acts
    /\ Forall (fun a => append_only a = true) acts.
Proof.
  intros Hm Hf w.
  destruct (Hm w) as (a1 & Hd1 & Hc1 & Ha1).
  destruct (Hf (fst (m w))) as (a2 & Hd2 & Hc2 & Ha2).
  exists (a1 ++ a2). rewrite Hd2, Hd1, Hc2, Hc1, foldl_app, app_assoc.
  split; [reflexivity|]. split; [reflexivity|]. now apply Forall_app.
Qed.

Lemma traced_bind {A B} (m : M A) (k : A -> M B) :
  traced m -> (forall a, traced (k a)) -> traced (bind m k).
Proof.
  intros Hm Hk w. unfold bind.
  destruct (m w) as [w' [a|e]] eqn:E.
  - pose proof (traced_then m (k a) Hm (Hk a) w) as H.
    now rewrite E in H.
  - pose proof (Hm w) as H. now rewrite E in H.
Qed.

Lemma traced_tryCatch {A} (m : M A) handler :
  traced m -> (forall e, traced (handler e)) -> traced (tryCatch m handler).
Proof.
  intros Hm Hk w. unfold tryCatch.
  destruct (m w) as [w' [a|e]] eqn:E.
  - pose proof (Hm w) as H. now rewrite E in H.
  - pose proof (traced_then m (handler e) Hm (Hk e) w) as H.
    now rewrite E in H.
Qed.

Lemma traced_tryFinally {A} (m : M A) fin :
  traced m -> traced fin -> traced (tryFinally m fin).
Proof.
  intros Hm Hf w. unfold tryFinally.
  pose proof (traced_then m fin Hm Hf w) as H.
  destruct (m w) as [w' o]. simpl in H.
  destruct (fin w') as [w'' [[]|e]]; exact H.
Qed.

Lemma traced_when b m : traced m -> traced (when b m).
Proof. destruct b; simpl; [auto | intros; apply traced_ret]. Qed.

Lemma traced_rendered {A} (f : State -> Chat -> Editor.t -> M A) :
  (forall st ch ed, traced (f st ch ed)) -> traced (rendered f).
Proof. intros H w. apply H. Qed.

Ltac traced_step :=
  first
    [ apply traced_bind; [|intros]
    | apply traced_tryCatch; [|intros]
    | apply traced_tryFinally
    | apply traced_when
    | apply traced_dispatch; reflexivity
    | apply traced_ret
    | apply traced_throw
    | apply traced_lift
    | apply traced_handleApiError
    | apply traced_api_post
    | apply traced_set_chat
    | apply traced_set_editor
    | apply traced_set_toasts
    | apply traced_rendered; intros
    | match goal with
      | |- Traced _ _ (if ?b then _ else _) => destruct b
      | |- Traced _ _ (match ?x with _ => _ end) => destruct x
      | |- Traced _ _ (let x := _ in _) => cbv zeta
      end ].

Lemma traced_startInterview message userId jobRole :
  traced (startInterview server authToken message userId jobRole).
Proof. unfold startInterview. repeat traced_step. Qed.

Lemma traced_continueInterview message sessionId userId jobRole :
  traced (continueInterview server authToken message sessionId userId jobRole).
Proof. unfold continueInterview. repeat traced_step. Qed.

Lemma traced_continueAfterCodingChallenge message sessionId userId completed :
  traced (continueAfterCodingChallenge server authToken message sessionId
            userId completed).
Proof. unfold continueAfterCodingChallenge. repeat traced_step. Qed.

Lemma traced_transcribeAndRespond audio userId sessionId jobRole :
  traced (transcribeAndRespond server authToken now audio userId sessionId
            jobRole).
Proof. unfold transcribeAndRespond. repeat traced_step. Qed.

Lemma traced_getChallengeHint challengeId code userId sessionId errorMessage :
  traced (getChallengeHint server authToken challengeId code userId sessionId
            errorMessage).
Proof. unfold getChallengeHint. repeat traced_step. Qed.

Lemma traced_handleSendMessage :
  traced (handleSendMessage server authToken uuid0 uuid).
Proof.
  unfold handleSendMessage, recordResponse.
  repeat first
    [ apply traced_startInterview | apply traced_continueInterview
    | apply traced_continueAfterCodingChallenge | traced_step ].
Qed.

Lemma traced_handleVoiceRecording stopRecording getAudioBase64 initRecording
    isRecording :
  traced (handleVoiceRecording server authToken now uuid0 uuid stopRecording
            getAudioBase64 initRecording isRecording).
Proof.
  unfold handleVoiceRecording.
  repeat first [ apply traced_transcribeAndRespond | traced_step ].
Qed.

Lemma traced_handleRequestHint currentCode :
  traced (handleRequestHint server authToken uuid0 uuid currentCode).
Proof.
  unfold handleRequestHint, toast.
  repeat first [ apply traced_getChallengeHint | traced_step ].
Qed.

Lemma append_only_prefix a st :
  append_only a = true ->
  messages st `prefix_of` messages (reducer uuid0 uuid st a).
Proof.
  intros Ha. rewrite reducer_messages.
  destruct a; try discriminate; try reflexivity.
  now apply prefix_app_r.
Qed.

Lemma foldl_append_only acts st :
  Forall (fun a => append_only a = true) acts ->
  messages st `prefix_of` messages (foldl (reducer uuid0 uuid) st acts).
Proof.
  revert st. induction acts as [|a r IH]; intros st Hall; simpl.
  - reflexivity.
  - inversion Hall as [|? ? Ha Hr]; subst.
    etransitivity; [apply (append_only_prefix a st Ha) | apply IH, Hr].
Qed.

Lemma traced_append_only {A} (m : M A) w :
  traced m -> AppendOnlyRun uuid0 uuid m w.
Proof.
  intros Hm. destruct (Hm w) as (acts & Hd & Hc & Ha).
  exists acts. split; [exact Hd|]. split; [exact Hc|]. split.
  - eapply Forall_impl; [exact Ha|]. intros a H st.
    now apply append_only_prefix.
  - rewrite Hc. now apply foldl_append_only.
Qed.

End Traces.

(** C3: during an interview turn, text or voice (and a hint request as
    well), the context state changes only through dispatched actions that
    keep the messages recorded so far, unchanged and in order, as a prefix of
    the new transcript; the transcript at the end of the turn extends the one
    at its start. The copy of the transcript the voice handler edits is never
    stored. *)
Theorem turn_messages_append_only
    (server : list Request -> Request -> Reply) (authToken : option string)
    (now : Z) (uuid0 uuid : string)
    (stopRecording : Outcome (option AudioData))
    (getAudioBase64 : string -> Outcome (option string))
    (initRecording : Outcome bool) (isRecording : bool)
    (currentCode : option string) (w : World) :
  AppendOnlyRun uuid0 uuid (handleSendMessage server authToken uuid0 uuid) w
  /\ AppendOnlyRun uuid0 uuid
       (handleVoiceRecording server authToken now uuid0 uuid stopRecording
          getAudioBase64 initRecording isRecording) w
  /\ AppendOnlyRun uuid0 uuid
       (handleRequestHint server authToken uuid0 uuid currentCode) w.
Proof.
  split; [|split]; apply traced_append_only.
  - apply traced_handleSendMessage.
  - apply traced_handleVoiceRecording.
  - apply traced_handleRequestHint.
Qed.

(** ** The chat handlers *)

Section ChatProperties.

Variable server : list Request -> Request -> Reply.
Variable authToken : option string.
Variables uuid0 uuid : string.

Ltac monad :=
  unfold rendered, recordResponse, tryFinally, tryCatch, bind, when, ret, throw,
    lift, dispatch, modify, setMessageInput, setIsWaitingForCodingChallenge,
    setShowPermissionHelp.

Ltac simp :=
  cbn -[reducer Js.truthy is_coding_stage startInterview continueInterview
        continueAfterCodingChallenge transcribeAndRespond String.eqb Js.trim
        String.append Js.show] in *.

Ltac split_if :=
  match goal with
  | |- context [if ?b then _ else _] => destruct b eqn:?
  | |- context [match server ?h ?r with _ => _ end] =>
      destruct (server h r) eqn:?
  end.


Lemma handleSendMessage_returns w :
  snd (handleSendMessage server authToken uuid0 uuid w) = Returned tt.
Proof.
  unfold handleSendMessage, rendered.
  destruct (String.eqb _ _); [reflexivity|].
  unfold tryFinally, tryCatch.
  match goal with |- context [bind ?m ?k w] => destruct (bind m k w) as [w' [[]|e]] end;
    reflexivity.
Qed.

Lemma handleSendMessage_routes (w : World) :
  String.eqb (Js.trim (messageInput (chat w))) "" = false ->
  let w' := fst (handleSendMessage server authToken uuid0 uuid w) in
  let text := messageInput (chat w) in
  let st := ctx w in
  let body := [("message", Js.JStr text); ("user_id", Js.of_string (userId st))] in
  if Js.truthy (sessionId st) then
    sessionId (ctx w') = sessionId st
    /\ (if Js.truthy (userId st) then
         sent w' =
         sent w ++
         [if isWaitingForCodingChallenge (chat w)
          then AxiosPost ("/interview/" +:+ Js.show (sessionId st)
                            +:+ "/challenge-complete")
                 (authorizationHeader authToken)
                 (body ++ [("challenge_completed", Js.JBool true)])
                 default_timeout
          else AxiosPost ("/interview/" +:+ Js.show (sessionId st))
                 (authorizationHeader authToken)
                 (body ++ jobRoleFields (jobRoleData st)) default_timeout]
       else sent w' = sent w)
  else
    let r := AxiosPost "/interview" (authorizationHeader authToken)
               (body ++ jobRoleFields (jobRoleData st)) default_timeout in
    sent w' = sent w ++ [r]
    /\ match server (sent w) r with
       | Ok data =>
           if Js.truthy (Data.session_id data)
           then sessionId (ctx w') = Data.session_id data
           else sessionId (ctx w') = sessionId st
       | Fail _ => sessionId (ctx w') = sessionId st
       end.
Proof.
  intros Hb. cbv zeta. unfold handleSendMessage, rendered. rewrite Hb.
  destruct (Js.truthy (sessionId (ctx w))) eqn:Hs.
  - destruct (isWaitingForCodingChallenge (chat w)) eqn:Hw.
    + monad. simp. rewrite continueAfterCodingChallenge_run. simp.
      rewrite Hs. simp.
      destruct (Js.truthy (userId (ctx w))) eqn:Hu; simp; [|auto].
      destruct (server _ _) eqn:Hr; simp; [|auto].
      repeat (split_if; simp); auto.
    + monad. simp. rewrite continueInterview_run. simp. rewrite Hs. simp.
      destruct (Js.truthy (userId (ctx w))) eqn:Hu; simp; [|auto].
      destruct (server _ _) eqn:Hr; simp; [|auto].
      repeat (split_if; simp); auto.
  - monad. simp. rewrite startInterview_run. simp.
    destruct (server _ _) eqn:Hr; simp; [|auto].
    repeat (split_if; simp); auto.
Qed.

Lemma waitingEffect_run w :
  waitingEffect w =
  (set_chat (fun c =>
     {| messageInput := messageInput c;
        isWaitingForCodingChallenge :=
          if String.eqb (interviewStage (ctx w)) "coding_challenge"
          then if is_some (currentCodingChallenge (ctx w)) then true
               else isWaitingForCodingChallenge c
          else false;
        showPermissionHelp := showPermissionHelp c |}) w,
   Returned tt).
Proof.
  unfold waitingEffect, rendered.
  destruct (String.eqb (interviewStage (ctx w)) "coding_challenge");
    destruct (is_some (currentCodingChallenge (ctx w))); simpl;
    try reflexivity.
  destruct w as [? [] ? ? ? ?]; reflexivity.
Qed.


End ChatProperties.

(** ** The page between two events *)

Section PageInvariant.

Variables uuid0 uuid : string.






End PageInvariant.

Section Conversation.

Variable server : list Request -> Request -> Reply.
Variable authToken : option string.
Variables uuid0 uuid : string.






End Conversation.


(** ** The challenge-complete signal *)


Section SignalProperties.

Variable server : list Request -> Request -> Reply.
Variable authToken : option string.
Variables uuid0 uuid : string.
Variable JSON_stringify : Js.Json -> string.

Lemma handleReturnToInterviewer_run w :
  Js.truthy (sessionId (ctx w)) = true ->
  Js.truthy (userId (ctx w)) = true ->
  let r := AxiosPost ("/interview/" +:+ Js.show (sessionId (ctx w))
                        +:+ "/challenge-complete")
             (authorizationHeader authToken)
             [("message", Js.JStr (JSON_stringify (feedbackMessage (editor w))));
              ("user_id", Js.of_string (userId (ctx w)));
              ("challenge_completed", Js.JBool true)] default_timeout in
  handleReturnToInterviewer server authToken uuid0 uuid JSON_stringify w =
  (match server (sent w) r with
   | Ok _ =>
       set_ctx (fun s => reducer uuid0 uuid s (SET_INTERVIEW_STAGE "FEEDBACK"))
         [SET_INTERVIEW_STAGE "FEEDBACK"] (log_request r w)
   | Fail _ => log_request r w
   end, Returned tt).
Proof.
  intros Hs Hu. cbv zeta.
  unfold handleReturnToInterviewer, rendered, tryCatch, bind.
  rewrite continueAfterCodingChallenge_run, Hs, Hu. simpl.
  destruct (server _ _); reflexivity.
Qed.


End SignalProperties.


(** ** Submissions *)

Section SubmitProperties.

Variable server : list Request -> Request -> Reply.
Variable fetchServer : list Request -> Request -> FetchReply.
Variable authToken : option string.
Variable JSON_stringify : Js.Json -> string.

Lemma handleSubmit_requests w :
  sent (fst (handleSubmit fetchServer authToken JSON_stringify w)) =
  if String.eqb (Js.trim (Editor.code (editor w))) ""
     || negb (Js.truthy authToken)
  then sent w
  else sent w ++
       [FetchPost "/api/coding/submit" ("Bearer " +:+ Js.show authToken)
          (JSON_stringify (Js.JObj (submitBody (ctx w) (editor w))))].
Proof.
  unfold handleSubmit, rendered.
  destruct (String.eqb (Js.trim (Editor.code (editor w))) "") eqn:Hc;
    [reflexivity|].
  destruct (Js.truthy authToken) eqn:Ht; [|reflexivity].
  unfold tryFinally, tryCatch, bind, toast, toast_closeAll, modify,
    setIsEvaluating, setEvaluationResult, fetch_post, throw.
  cbn -[String.eqb Js.trim Js.truthy Js.show String.append submitBody pretty].
  destruct (fetchServer _ _) as [e|ok result];
    cbn -[String.eqb Js.trim Js.truthy Js.show String.append submitBody pretty];
    [reflexivity|].
  destruct ok;
    cbn -[String.eqb Js.trim Js.truthy Js.show String.append submitBody pretty];
    reflexivity.
Qed.

(** C7 (amended): submitChallengeCode sends a submission to /coding/submit
    only with a challenge id and a code that is not blank: it throws
    ('Challenge ID is required', 'Code solution is required') before any
    request when the challenge id is missing or the code is missing, empty or
    white space only, and the body it sends consists of challenge_id, code,
    user_id and session_id. The editor's submit path sends its request only
    when the code is not blank (and a token is stored), with a body of
    challenge_id, language, code, user_id and session_id, the challenge_id
    being read off the loaded challenge (its challenge_id, else its id). *)
Theorem submission_requests (challengeId code user session : option string)
    (w : World) :
  let called :=
    submitChallengeCode server authToken challengeId code user session w in
  (code_missing code = true <->
   code = None \/ exists s, code = Some s /\ Js.whitespace_only s = true)
  /\ (if Js.truthy challengeId && negb (code_missing code)
      then sent (fst called) =
           sent w ++
           [AxiosPost "/coding/submit" (authorizationHeader authToken)
              [("challenge_id", Js.of_string challengeId);
               ("code", Js.of_string code);
               ("user_id", Js.of_string user);
               ("session_id", Js.of_string session)] default_timeout]
      else sent (fst called) = sent w
           /\ exists e,
                snd called = Thrown e
                /\ Err.message e =
                     (if Js.truthy challengeId then "Code solution is required"
                      else "Challenge ID is required"))
  /\ sent (fst (handleSubmit fetchServer authToken JSON_stringify w)) =
       (if Js.whitespace_only (Editor.code (editor w))
           || negb (Js.truthy authToken)
        then sent w
        else sent w ++
             [FetchPost "/api/coding/submit" ("Bearer " +:+ Js.show authToken)
                (JSON_stringify
                   (Js.JObj
                      [("challenge_id",
                        Js.of_prop
                          (match Editor.currentChallengeDetails (editor w) with
                           | Some c => Js.or (challenge_id c) (id c)
                           | None => None
                           end));
                       ("language", Js.JStr (Editor.language (editor w)));
                       ("code", Js.JStr (Editor.code (editor w)));
                       ("user_id", Js.of_string (userId (ctx w)));
                       ("session_id", Js.of_string (sessionId (ctx w)))]))]).
Proof.
  cbv zeta. split; [apply code_missing_iff|]. split.
  - rewrite submitChallengeCode_run.
    destruct (Js.truthy challengeId); simpl.
    + destruct (code_missing code); simpl.
      * split; [reflexivity|]. eexists. split; reflexivity.
      * reflexivity.
    + split; [reflexivity|]. eexists. split; reflexivity.
  - rewrite handleSubmit_requests.
    destruct (Js.whitespace_only (Editor.code (editor w))) eqn:Hw.
    + apply trim_empty_iff in Hw. rewrite Hw. reflexivity.
    + destruct (String.eqb (Js.trim (Editor.code (editor w))) "") eqn:Ht.
      * apply trim_empty_iff in Ht. congruence.
      * reflexivity.
Qed.

End SubmitProperties.

(** C7 (as stated) fails: the editor holds a challenge that carries neither
    challenge_id nor id and a solution; its submit sends the request to
    /api/coding/submit with no challenge id in the body. *)
Lemma editor_submits_without_challenge_id :
  Editor.currentChallengeDetails (editor (editing untagged "print(1)"))
    = Some untagged
  /\ Js.or (challenge_id untagged) (id untagged) = None
  /\ sent (fst (handleSubmit grader (Some "token") writtenKeys
                  (editing untagged "print(1)"))) =
       [FetchPost "/api/coding/submit" "Bearer token"
          "language,code,user_id,session_id"]
  /\ submitBody (ctx (editing untagged "print(1)"))
                (editor (editing untagged "print(1)")) =
       [("challenge_id", Js.JUndefined);
        ("language", Js.JStr "python");
        ("code", Js.JStr "print(1)");
        ("user_id", Js.JStr "user-u0");
        ("session_id", Js.JStr "s1")].
Proof. repeat split; reflexivity. Qed.

(** ** Failures *)

Section FailureProperties.

Variable server : list Request -> Request -> Reply.
Variable authToken : option string.
Variable now : Z.
Variables uuid0 uuid : string.
Variable stopRecording : Outcome (option AudioData).
Variable getAudioBase64 : string -> Outcome (option string).
Variable initRecording : Outcome bool.

Ltac monad :=
  unfold rendered, recordResponse, tryFinally, tryCatch, bind, when, ret, throw,
    lift, dispatch, modify, setMessageInput, setIsWaitingForCodingChallenge,
    setShowPermissionHelp.

Ltac simp :=
  cbn -[reducer Js.truthy is_coding_stage startInterview continueInterview
        continueAfterCodingChallenge transcribeAndRespond String.eqb Js.trim
        String.append Js.show Z.eqb] in *.

Lemma responseInterceptor_message error r :
  Err.response error = Some r ->
  (500 <= status r ->
   Err.message (responseInterceptor error) =
   "The server encountered an error. Please try again later.")
  /\ (status r = 429 ->
      Err.message (responseInterceptor error) =
      "Too many requests. Please wait a moment before trying again.").
Proof.
  intros Hr. unfold responseInterceptor. rewrite Hr. split.
  - intros H. destruct (status r =? 429); simpl; rewrite Hr;
      (destruct (500 <=? status r) eqn:E; [reflexivity | lia]).
  - intros H. rewrite H. simpl. rewrite Hr, H. reflexivity.
Qed.

Lemma handleSendMessage_failure w :
  String.eqb (Js.trim (messageInput (chat w))) "" = false ->
  (forall h r, exists e, server h r = Fail e) ->
  error (ctx (fst (handleSendMessage server authToken uuid0 uuid w))) =
  Some "Failed to send message. Please try again.".
Proof.
  intros Hb Hdown. unfold handleSendMessage, rendered. rewrite Hb.
  destruct (Js.truthy (sessionId (ctx w))) eqn:Hs.
  - destruct (isWaitingForCodingChallenge (chat w)) eqn:Hw.
    + monad. simp. rewrite continueAfterCodingChallenge_run. simp.
      rewrite Hs. simp.
      destruct (Js.truthy (userId (ctx w))) eqn:Hu; simp; [|reflexivity].
      match goal with |- context [server ?h ?r] =>
        destruct (Hdown h r) as [e ->] end.
      reflexivity.
    + monad. simp. rewrite continueInterview_run. simp. rewrite Hs. simp.
      destruct (Js.truthy (userId (ctx w))) eqn:Hu; simp; [|reflexivity].
      match goal with |- context [server ?h ?r] =>
        destruct (Hdown h r) as [e ->] end.
      reflexivity.
  - monad. simp. rewrite startInterview_run. simp.
    match goal with |- context [server ?h ?r] =>
      destruct (Hdown h r) as [e ->] end.
    reflexivity.
Qed.

Lemma handleVoiceRecording_returns isRecording w :
  snd (handleVoiceRecording server authToken now uuid0 uuid stopRecording
         getAudioBase64 initRecording isRecording w) = Returned tt.
Proof.
  unfold handleVoiceRecording, rendered. destruct isRecording.
  - unfold tryFinally, tryCatch.
    match goal with |- context [bind ?m ?k w] =>
      destruct (bind m k w) as [w' [[]|e]] end; reflexivity.
  - unfold tryCatch, bind, lift. destruct initRecording as [b|e]; [reflexivity|].
    unfold dispatch, modify, when. simpl.
    destruct (_ || _); reflexivity.
Qed.

Lemma handleVoiceRecording_failure b audio w :
  stopRecording = Returned (Some {| blob := Some b |}) ->
  getAudioBase64 b = Returned audio ->
  Js.truthy audio = true ->
  (forall h r, exists e, server h r = Fail e) ->
  let w' := fst (handleVoiceRecording server authToken now uuid0 uuid
                   stopRecording getAudioBase64 initRecording true w) in
  error (ctx w') = Some "Voice processing is not available."
  \/ error (ctx w') = Some "Failed to process voice input. Please try again.".
Proof.
  intros Hstop Hb64 Haudio Hdown. cbv zeta.
  unfold handleVoiceRecording, rendered. rewrite Hstop.
  monad. simp. rewrite Hb64, Haudio. simp.
  rewrite transcribeAndRespond_run, Haudio. simp.
  match goal with |- context [server ?h ?r] =>
    destruct (Hdown h r) as [e ->] end.
  destruct (Err.response (responseInterceptor e)) as [r|]; simp; [|auto].
  destruct (status r =? 501); simp; [auto|].
  destruct (status r =? 422); simp; auto.
Qed.

(** C8 (amended): a failed API call made by a chat turn, text or voice,
    surfaces to the user as the error banner and never as a crash: the
    handlers always return, and after a failed call the banner reads 'Failed
    to send message. Please try again.' (text) or 'Failed to process voice
    input. Please try again.' / 'Voice processing is not available.' (voice).
    handleApiError always throws an Error whose message is not empty, and
    the response interceptor rewrites the message of every error with status
    at least 500 to 'The server encountered an error. Please try again
    later.' and of every error with status 429 to 'Too many requests. Please
    wait a moment before trying again.'. *)
Theorem api_failures_surface :
  (forall (A : Type) error customMessage w,
     exists e,
       @handleApiError A error customMessage w = (w, Thrown e)
       /\ Err.message e = apiErrorMessage error customMessage
       /\ Err.message e <> "")
  /\ (forall error r,
        Err.response error = Some r ->
        (500 <= status r ->
         Err.message (responseInterceptor error) =
         "The server encountered an error. Please try again later.")
        /\ (status r = 429 ->
            Err.message (responseInterceptor error) =
            "Too many requests. Please wait a moment before trying again."))
  /\ (forall w,
        snd (handleSendMessage server authToken uuid0 uuid w) = Returned tt)
  /\ (forall w,
        String.eqb (Js.trim (messageInput (chat w))) "" = false ->
        (forall h r, exists e, server h r = Fail e) ->
        error (ctx (fst (handleSendMessage server authToken uuid0 uuid w))) =
        Some "Failed to send message. Please try again.")
  /\ (forall isRecording w,
        snd (handleVoiceRecording server authToken now uuid0 uuid stopRecording
               getAudioBase64 initRecording isRecording w) = Returned tt)
  /\ (forall b audio w,
        stopRecording = Returned (Some {| blob := Some b |}) ->
        getAudioBase64 b = Returned audio ->
        Js.truthy audio = true ->
        (forall h r, exists e, server h r = Fail e) ->
        let w' := fst (handleVoiceRecording server authToken now uuid0 uuid
                         stopRecording getAudioBase64 initRecording true w) in
        error (ctx w') = Some "Voice processing is not available."
        \/ error (ctx w') =
             Some "Failed to process voice input. Please try again.").
Proof.
  split; [|split; [|split; [|split; [|split]]]].
  - intros A e c w. eexists. split; [apply handleApiError_throws|].
    split; [reflexivity|]. apply apiErrorMessage_not_empty.
  - apply responseInterceptor_message.
  - apply handleSendMessage_returns.
  - apply handleSendMessage_failure.
  - apply handleVoiceRecording_returns.
  - apply handleVoiceRecording_failure.
Qed.

End FailureProperties.

Lemma api_failures_surface_witness :
  String.eqb (Js.trim (messageInput (chat firstVisit))) "" = false
  /\ (forall h r, exists e, down h r = Fail e)
  /\ error (ctx (fst (handleSendMessage down None "u0" "u1" firstVisit))) =
       Some "Failed to send message. Please try again."
  /\ Err.message (responseInterceptor unavailable) =
       "The server encountered an error. Please try again later.".
Proof.
  destruct (api_failures_surface down None 0 "u0" "u1"
              (Thrown (Err.new "no recorder")) (fun _ => Returned None)
              (Returned true))
    as (_ & H2 & _ & H4 & _).
  assert (Hdown : forall h r, exists e, down h r = Fail e)
    by (intros; eexists; reflexivity).
  split; [reflexivity|]. split; [exact Hdown|].
  split; [exact (H4 firstVisit eq_refl Hdown)|].
  apply (H2 unavailable _ eq_refl). simpl. lia.
Defined.

(** C8 (as stated) fails: the candidate's solution has been graded and
    "Return to Interviewer" is clicked while the server is down; the
    challenge-complete call fails, the handler catches the error and the
    page shows nothing new: no banner, no toast, no message, the stage
    unchanged. *)
Lemma return_to_interviewer_fails_silently :
  Presented submitted
  /\ Editor.evaluationResult (editor submitted) = Some allPassed
  /\ sent (fst (handleReturnToInterviewer down (Some "token") "u0" "u1"
                  writtenKeys submitted)) =
       sent submitted ++
       [AxiosPost "/interview/s1/challenge-complete" (Some "Bearer token")
          [("message", Js.JStr "type,content,evaluationResult,code");
           ("user_id", Js.JStr "user-u0");
           ("challenge_completed", Js.JBool true)] 120000]
  /\ snd (handleReturnToInterviewer down (Some "token") "u0" "u1" writtenKeys
            submitted) = Returned tt
  /\ ctx (fst (handleReturnToInterviewer down (Some "token") "u0" "u1"
                 writtenKeys submitted)) = ctx submitted
  /\ error (ctx submitted) = None
  /\ toasts (fst (handleReturnToInterviewer down (Some "token") "u0" "u1"
                    writtenKeys submitted)) = toasts submitted.
Proof. repeat split; reflexivity. Qed.

(** ** Replayed messages *)

(** C5: in the agent loop modelled from the specification, replaying the
    inbound message that the session already contains as its last message
    is a no-op: the session (messages, stage) is returned as it is and no
    turn is resolved. The duplicate is detected by identity, not by content:
    the last entry is the replayed one when it records the identity of the
    inbound message, whatever its content, and an inbound message with
    another identity is appended and resolved in one turn, whatever its
    text, the text of the last message included. *)
Theorem replayed_message_is_a_noop
    (resolve : list AgentLoop.Entry -> SessionStore.Stage ->
               list AgentLoop.Entry * SessionStore.Stage)
    (s : AgentLoop.Session) (m other : AgentLoop.Inbound)
    (e : AgentLoop.Entry) :
  last (AgentLoop.entries s) = Some e ->
  AgentLoop.inbound e = Some (AgentLoop.identity m) ->
  let appended := AgentLoop.entries s ++ [AgentLoop.entry_of other] in
  AgentLoop.handle_message resolve s m = (s, 0%nat)
  /\ (AgentLoop.identity other <> AgentLoop.identity m ->
      AgentLoop.handle_message resolve s other =
      ({| AgentLoop.entries :=
            appended ++ fst (resolve appended (AgentLoop.stage s));
          AgentLoop.stage := snd (resolve appended (AgentLoop.stage s)) |},
       1%nat)).
Proof.
  intros Hlast Hid. cbv zeta.
  unfold AgentLoop.handle_message, AgentLoop.replayed. rewrite Hlast, Hid.
  rewrite String.eqb_refl. split; [reflexivity|].
  intros Hne.
  destruct (String.eqb (AgentLoop.identity m) (AgentLoop.identity other)) eqn:E.
  - apply String.eqb_eq in E. congruence.
  - destruct (resolve _ _); reflexivity.
Qed.

Lemma replayed_message_is_a_noop_witness :
  last (AgentLoop.entries AgentLoop.sample)
  = Some (AgentLoop.entry_of
            {| AgentLoop.identity := "m1"; AgentLoop.text := "Hello" |})
  /\ AgentLoop.handle_message AgentLoop.echo AgentLoop.sample
       {| AgentLoop.identity := "m1"; AgentLoop.text := "Hello" |}
     = (AgentLoop.sample, 0%nat)
  /\ snd (AgentLoop.handle_message AgentLoop.echo AgentLoop.sample
            {| AgentLoop.identity := "m2"; AgentLoop.text := "Hello" |})
     = 1%nat.
Proof.
  destruct (replayed_message_is_a_noop AgentLoop.echo AgentLoop.sample
              {| AgentLoop.identity := "m1"; AgentLoop.text := "Hello" |}
              {| AgentLoop.identity := "m2"; AgentLoop.text := "Hello" |}
              _ eq_refl eq_refl) as [H1 H2].
  split; [reflexivity|]. split; [exact H1|].
  rewrite H2; [reflexivity | discriminate].
Defined.

(** ** The coding challenge on the page *)

Section ChallengeProperties.

Variable server : list Request -> Request -> Reply.
Variable authToken : option string.
Variable now : Z.
Variables uuid0 uuid : string.
Variable stopRecording : Outcome (option AudioData).
Variable getAudioBase64 : string -> Outcome (option string).
Variable initRecording : Outcome bool.

Ltac monad :=
  unfold rendered, recordResponse, tryFinally, tryCatch, bind, when, ret, throw,
    lift, dispatch, modify, setMessageInput, setIsWaitingForCodingChallenge,
    setShowPermissionHelp.

Ltac simp :=
  cbn -[reducer Js.truthy is_coding_stage startInterview continueInterview
        continueAfterCodingChallenge transcribeAndRespond String.eqb Js.trim
        String.append Js.show Z.eqb] in *.

Lemma recordResponse_records response c w :
  Js.truthy (Data.interview_stage response) = true ->
  is_coding_stage (Js.show (Data.interview_stage response)) = true ->
  Data.codingChallengeDetail response = Some c ->
  let w' := fst (recordResponse uuid0 uuid response w) in
  currentCodingChallenge (ctx w') = Some c
  /\ interviewStage (ctx w') = Js.show (Data.interview_stage response).
Proof.
  intros Hs Hc Hd. cbv zeta. monad. rewrite Hs, Hc, Hd.
  destruct (Js.truthy (Data.response response)); simpl; auto.
Qed.

Lemma handleSendMessage_records data c w :
  String.eqb (Js.trim (messageInput (chat w))) "" = false ->
  (forall h r, server h r = Ok data) ->
  (Js.truthy (sessionId (ctx w)) = true ->
   isWaitingForCodingChallenge (chat w) = false
   /\ Js.truthy (userId (ctx w)) = true) ->
  Js.truthy (Data.interview_stage data) = true ->
  is_coding_stage (Js.show (Data.interview_stage data)) = true ->
  Data.coding_challenge_detail data = Some c ->
  let w' := fst (handleSendMessage server authToken uuid0 uuid w) in
  currentCodingChallenge (ctx w') = Some c
  /\ interviewStage (ctx w') = Js.show (Data.interview_stage data).
Proof.
  intros Hb Hok Hids Hs Hc Hd. cbv zeta.
  unfold handleSendMessage, rendered. rewrite Hb.
  destruct (Js.truthy (sessionId (ctx w))) eqn:Hsid.
  - destruct (Hids eq_refl) as [Hw Hu]. rewrite Hw.
    monad. simp. rewrite continueInterview_run. simp. rewrite Hsid, Hu. simp.
    rewrite Hok. simp.
    destruct (Js.truthy (Data.response data)); simp;
      rewrite Hs; simp; rewrite Hc, Hd; simp; auto.
  - monad. simp. rewrite startInterview_run. simp.
    rewrite Hok. simp.
    destruct (Js.truthy (Data.session_id data)); simp;
      destruct (Js.truthy (Data.response data)); simp;
      rewrite Hs; simp; rewrite Hc, Hd; simp; auto.
Qed.

Lemma stageEffect_waits c w :
  Editor.currentChallengeDetails (editor w) = Some c ->
  interviewStage (ctx (fst (stageEffect uuid0 uuid w))) =
  "coding_challenge_waiting".
Proof.
  intros Hc. unfold stageEffect, rendered. rewrite Hc. simpl.
  destruct (String.eqb (interviewStage (ctx w)) "coding_challenge_waiting")
    eqn:E; simpl; [|reflexivity].
  now apply String.eqb_eq.
Qed.

Lemma handleVoiceRecording_challenge b audio data w :
  stopRecording = Returned (Some {| blob := Some b |}) ->
  getAudioBase64 b = Returned audio ->
  Js.truthy audio = true ->
  (forall h r, server h r = Ok data) ->
  Js.truthy (Data.transcription data) = true ->
  Js.truthy (Data.interview_stage data) = true ->
  let w' := fst (handleVoiceRecording server authToken now uuid0 uuid
                   stopRecording getAudioBase64 initRecording true w) in
  currentCodingChallenge (ctx w') =
  if String.eqb (Js.show (Data.interview_stage data)) "coding_challenge"
  then match Data.coding_challenge_detail data with
       | Some c => Some c
       | None => currentCodingChallenge (ctx w)
       end
  else None.
Proof.
  intros Hstop Hb64 Haudio Hok Ht Hs. cbv zeta.
  unfold handleVoiceRecording, rendered. rewrite Hstop.
  monad. simp. rewrite Hb64, Haudio. simp.
  rewrite transcribeAndRespond_run, Haudio. simp.
  rewrite Hok. simp. rewrite Ht. simp. rewrite Hs. simp.
  destruct (String.eqb (Js.show (Data.interview_stage data)) "coding_challenge");
    simp.
  - destruct (Data.coding_challenge_detail data); simp; reflexivity.
  - destruct (currentCodingChallenge (ctx w)) eqn:Hcc; simp; auto.
Qed.

(** C6: when the response read by handleSendMessage carries stage
    'coding_challenge' or 'coding_challenge_waiting' together with a
    challenge detail, that detail becomes the current coding challenge and
    the stage is the response's (for the answers to /interview and
    /interview/{session_id} the detail is the server's
    coding_challenge_detail); once a challenge is loaded in the editor, its
    stage effect leaves the client stage at 'coding_challenge_waiting'; in
    the voice flow a response with stage 'coding_challenge' and a detail
    records it, and a response with any other stage clears the active
    challenge. *)
Theorem coding_challenge_is_recorded (data : Data.t) (c : Challenge)
    (b : string) (audio : option string) (w : World) :
  Js.truthy (Data.interview_stage data) = true ->
  let stage := Js.show (Data.interview_stage data) in
  (is_coding_stage stage = true ->
   Data.codingChallengeDetail data = Some c ->
   let w' := fst (recordResponse uuid0 uuid data w) in
   currentCodingChallenge (ctx w') = Some c /\ interviewStage (ctx w') = stage)
  /\ (String.eqb (Js.trim (messageInput (chat w))) "" = false ->
      (forall h r, server h r = Ok data) ->
      (Js.truthy (sessionId (ctx w)) = true ->
       isWaitingForCodingChallenge (chat w) = false
       /\ Js.truthy (userId (ctx w)) = true) ->
      is_coding_stage stage = true ->
      Data.coding_challenge_detail data = Some c ->
      let w' := fst (handleSendMessage server authToken uuid0 uuid w) in
      currentCodingChallenge (ctx w') = Some c /\ interviewStage (ctx w') = stage)
  /\ (Editor.currentChallengeDetails (editor w) = Some c ->
      interviewStage (ctx (fst (stageEffect uuid0 uuid w))) =
      "coding_challenge_waiting")
  /\ (stopRecording = Returned (Some {| blob := Some b |}) ->
      getAudioBase64 b = Returned audio ->
      Js.truthy audio = true ->
      (forall h r, server h r = Ok data) ->
      Js.truthy (Data.transcription data) = true ->
      let w' := fst (handleVoiceRecording server authToken now uuid0 uuid
                       stopRecording getAudioBase64 initRecording true w) in
      (stage = "coding_challenge" ->
       Data.coding_challenge_detail data = Some c ->
       currentCodingChallenge (ctx w') = Some c)
      /\ (stage <> "coding_challenge" ->
          currentCodingChallenge (ctx w') = None)).
Proof.
  intros Hs. cbv zeta. split; [|split; [|split]].
  - intros Hc Hd. now apply recordResponse_records.
  - intros Hb Hok Hids Hc Hd. now apply handleSendMessage_records.
  - apply stageEffect_waits.
  - intros Hstop Hb64 Haudio Hok Ht.
    pose proof (handleVoiceRecording_challenge b audio data w Hstop Hb64 Haudio
                  Hok Ht Hs) as H. cbv zeta in H.
    split.
    + intros Hstage Hd. rewrite H, Hstage, Hd. reflexivity.
    + intros Hstage. rewrite H.
      destruct (String.eqb _ _) eqn:E; [|reflexivity].
      apply String.eqb_eq in E. contradiction.
Qed.

End ChallengeProperties.

Lemma coding_challenge_is_recorded_witness :
  Js.truthy (Data.interview_stage challenged) = true
  /\ String.eqb (Js.trim (messageInput (chat firstVisit))) "" = false
  /\ Data.coding_challenge_detail challenged = Some twoSum
  /\ currentCodingChallenge
       (ctx (fst (handleSendMessage challenger None "u0" "u1" firstVisit)))
     = Some twoSum
  /\ interviewStage
       (ctx (fst (handleSendMessage challenger None "u0" "u1" firstVisit)))
     = "coding_challenge"
  /\ interviewStage
       (ctx (fst (stageEffect "u0" "u1" (editing twoSum "")))) =
     "coding_challenge_waiting".
Proof.
  destruct (coding_challenge_is_recorded challenger None 0 "u0" "u1"
              (Returned None) (fun _ => Returned None) (Returned true)
              challenged twoSum "" None firstVisit eq_refl)
    as (_ & H2 & _ & _).
  destruct (coding_challenge_is_recorded challenger None 0 "u0" "u1"
              (Returned None) (fun _ => Returned None) (Returned true)
              challenged twoSum "" None (editing twoSum "") eq_refl)
    as (_ & _ & H3 & _).
  split; [reflexivity|]. split; [reflexivity|]. split; [reflexivity|].
  assert (Hids : Js.truthy (sessionId (ctx firstVisit)) = true ->
                 isWaitingForCodingChallenge (chat firstVisit) = false
                 /\ Js.truthy (userId (ctx firstVisit)) = true)
    by (intros; split; reflexivity).
  destruct (H2 eq_refl (fun _ _ => eq_refl) Hids eq_refl eq_refl) as [Ha Hb].
  split; [exact Ha|]. split; [exact Hb|]. exact (H3 eq_refl).
Defined.

(** ** The session store *)

(** C4: loading a session by its session id right after it was saved yields a
    session with the messages and the stage that were saved. *)
Theorem load_after_save
    (accepts : gmap string SessionStore.InterviewSession ->
               SessionStore.InterviewSession -> bool)
    (s : SessionStore.InterviewSession)
    (store store' : gmap string SessionStore.InterviewSession) :
  SessionStore.save accepts s store = SessionStore.SaveOk store' ->
  exists s',
    SessionStore.load (SessionStore.session_id s) store' = Some s'
    /\ SessionStore.messages s' = SessionStore.messages s
    /\ SessionStore.stage s' = SessionStore.stage s.
Proof.
  unfold SessionStore.save, SessionStore.load.
  destruct (accepts store s); [|discriminate].
  intros [= <-]. exists s. rewrite lookup_insert_eq. auto.
Qed.

Lemma load_after_save_witness :
  SessionStore.save (fun _ _ => true) SessionStore.sample ∅
  = SessionStore.SaveOk (<["s1" := SessionStore.sample]> ∅)
  /\ exists s',
       SessionStore.load "s1" (<["s1" := SessionStore.sample]> ∅) = Some s'
       /\ SessionStore.messages s' = SessionStore.messages SessionStore.sample
       /\ SessionStore.stage s' = SessionStore.stage SessionStore.sample.
Proof.
  split; [reflexivity|].
  exact (load_after_save (fun _ _ => true) SessionStore.sample ∅ _ eq_refl).
Defined.

(** ** The page once its effects have run *)

(** X1: once the editor has loaded a challenge and the stage effect and the
    chat's waiting effect have run, the client stage is
    'coding_challenge_waiting' and the chat's waiting flag is clear, so that a
    chat message typed then is sent to /interview/{session_id}. *)
Theorem settled_chat_continues
    (server : list Request -> Request -> Reply) (authToken : option string)
    (uuid0 uuid : string) (c : Challenge) (w : World) :
  Editor.currentChallengeDetails (editor w) = Some c ->
  let settled := fst (waitingEffect (fst (stageEffect uuid0 uuid w))) in
  interviewStage (ctx settled) = "coding_challenge_waiting"
  /\ isWaitingForCodingChallenge (chat settled) = false
  /\ (Js.truthy (sessionId (ctx w)) = true ->
      Js.truthy (userId (ctx w)) = true ->
      String.eqb (Js.trim (messageInput (chat w))) "" = false ->
      sent (fst (handleSendMessage server authToken uuid0 uuid settled)) =
      sent w ++
      [AxiosPost ("/interview/" +:+ Js.show (sessionId (ctx w)))
         (authorizationHeader authToken)
         ([("message", Js.JStr (messageInput (chat w)));
           ("user_id", Js.of_string (userId (ctx w)))]
          ++ jobRoleFields (jobRoleData (ctx w))) default_timeout]).
Proof.
  intros Hc. cbv zeta.
  pose proof (stageEffect_waits uuid0 uuid c w Hc) as Hstage.
  assert (Hframe : forall v,
            sessionId (ctx (fst (stageEffect uuid0 uuid v))) = sessionId (ctx v)
            /\ userId (ctx (fst (stageEffect uuid0 uuid v))) = userId (ctx v)
            /\ jobRoleData (ctx (fst (stageEffect uuid0 uuid v)))
               = jobRoleData (ctx v)
            /\ chat (fst (stageEffect uuid0 uuid v)) = chat v
            /\ sent (fst (stageEffect uuid0 uuid v)) = sent v).
  { intros v. unfold stageEffect, rendered.
    destruct (_ && _); simpl; auto. }
  destruct (Hframe w) as (Hsid & Huid & Hjob & Hchat & Hsent).
  set (w1 := fst (stageEffect uuid0 uuid w)) in *.
  rewrite waitingEffect_run. cbn [fst ctx chat set_chat
                                  isWaitingForCodingChallenge].
  rewrite Hstage. cbn [String.eqb Ascii.eqb Bool.eqb].
  split; [reflexivity|]. split; [reflexivity|].
  intros Hs Hu Hb.
  match goal with |- context [handleSendMessage _ _ _ _ ?v] =>
    pose proof (handleSendMessage_routes server authToken uuid0 uuid v) as H
  end.
  cbv zeta in H.
  cbn [ctx chat sent set_chat messageInput isWaitingForCodingChallenge] in H.
  rewrite Hsid, Huid, Hjob, Hchat, Hsent, Hs, Hu in H.
  destruct (H Hb) as [_ H']. exact H'.
Qed.

Lemma settled_chat_continues_witness :
  Editor.currentChallengeDetails (editor (editing twoSum "")) = Some twoSum
  /\ interviewStage
       (ctx (fst (waitingEffect (fst (stageEffect "u0" "u1" (editing twoSum ""))))))
     = "coding_challenge_waiting"
  /\ isWaitingForCodingChallenge
       (chat (fst (waitingEffect (fst (stageEffect "u0" "u1" (editing twoSum ""))))))
     = false.
Proof.
  split; [reflexivity|].
  destruct (settled_chat_continues greeter None "u0" "u1" twoSum
              (editing twoSum "") eq_refl) as (H1 & H2 & _).
  split; [exact H1 | exact H2].
Defined.

(** ** What the service layer passes on *)

Lemma responseInterceptor_response error :
  Err.response (responseInterceptor error) = Err.response error.
Proof.
  unfold responseInterceptor.
  destruct (Err.response error) as [r|] eqn:Hr; [|now rewrite Hr].
  destruct (status r =? 429); simpl; rewrite Hr;
    destruct (500 <=? status r); simpl; congruence.
Qed.

(** X2: the message the response interceptor writes on a rate-limit or
    server error is not the message of the error a service function throws.
    The error handleApiError builds from an intercepted error has the message
    of the one it builds from the error as the server sent it; with a
    response that message is 'Server error: ' followed by the detail or the
    status text, and the error carries the status and the data of the
    response. The interceptor keeps the response and, without one, the whole
    error; the message it wrote (the server-error text from status 500 on,
    the rate-limit text at 429) survives only in the originalError attached
    to the error thrown. *)
Theorem interceptor_message_is_dropped (error : Err.t)
    (customMessage : option string) :
  let intercepted := responseInterceptor error in
  let thrown := enhancedError intercepted customMessage in
  Err.message thrown = Err.message (enhancedError error customMessage)
  /\ Err.enhanced_status thrown = status <$> Err.response error
  /\ Err.serverData thrown = detail <$> Err.response error
  /\ Err.originalError thrown = Some intercepted
  /\ Err.response intercepted = Err.response error
  /\ match Err.response error with
     | Some r =>
         Err.message thrown =
           "Server error: " +:+ Js.show (Js.or (detail r) (statusText r))
         /\ Err.message intercepted =
              (if 500 <=? status r
               then "The server encountered an error. Please try again later."
               else if status r =? 429
               then "Too many requests. Please wait a moment before trying again."
               else Err.message error)
     | None => intercepted = error
     end.
Proof.
  cbv zeta. unfold enhancedError, apiErrorMessage.
  cbn [Err.message Err.enhanced_status Err.serverData Err.originalError].
  rewrite responseInterceptor_response.
  split; [|split; [reflexivity|split; [reflexivity|split; [reflexivity|split;
    [reflexivity|]]]]].
  - destruct (Err.response error) as [r|] eqn:Hr; [reflexivity|].
    unfold responseInterceptor. rewrite Hr. cbv beta iota zeta. rewrite Hr.
    reflexivity.
  - destruct (Err.response error) as [r|] eqn:Hr.
    + split; [reflexivity|].
      unfold responseInterceptor. rewrite Hr.
      destruct (status r =? 429); cbn [Err.set_message Err.response];
        rewrite Hr; destruct (500 <=? status r); reflexivity.
    + unfold responseInterceptor. rewrite Hr. cbv beta iota zeta. rewrite Hr.
      reflexivity.
Qed.

(** ** Hints *)

Section HintProperties.

Variable server : list Request -> Request -> Reply.
Variable authToken : option string.
Variables uuid0 uuid : string.

Lemma getChallengeHint_run challengeId code userId sessionId errorMessage w :
  getChallengeHint server authToken challengeId code userId sessionId
    errorMessage w =
  if negb (Js.truthy challengeId) then
    (w, Thrown (enhancedError (Err.new "Challenge ID is required")
                  (Some "Failed to get hint")))
  else
    let r := AxiosPost "/coding/hint" (authorizationHeader authToken)
               [("challenge_id", Js.of_string challengeId);
                ("code", Js.JStr (if Js.truthy code then Js.show code else ""));
                ("user_id", Js.of_string userId);
                ("session_id", Js.of_string sessionId);
                ("error_message", Js.of_string errorMessage)] default_timeout in
    (log_request r w,
     match server (sent w) r with
     | Ok data => Returned data
     | Fail e =>
         Thrown (enhancedError (responseInterceptor e) (Some "Failed to get hint"))
     end).
Proof.
  unfold getChallengeHint, tryCatch.
  destruct (negb (Js.truthy challengeId)); [reflexivity|].
  rewrite api_post_run. simpl. destruct (server _ _); reflexivity.
Qed.

(** X3: a hint request never throws and never touches the error banner.
    Without a current challenge it does nothing. With one it ends with the
    loading flag cleared; when the challenge carries a challenge_id it sends
    one POST to /coding/hint (the code, or '' when there is none) and either
    appends exactly one assistant message marked as a hint (server answered)
    or appends nothing and opens the 'Hint Error' toast (call failed); when
    the challenge carries no challenge_id no request leaves and the 'Hint
    Error' toast is opened. *)
Theorem hint_request_outcome (currentCode : option string) (w : World) :
  let run := handleRequestHint server authToken uuid0 uuid currentCode w in
  let w' := fst run in
  let st := ctx w in
  let failed :=
    {| toast_title := "Hint Error";
       toast_description := Some "Failed to get a hint. Please try again later.";
       toast_status := "error" |} in
  snd run = Returned tt
  /\ match currentCodingChallenge st with
     | None => w' = w
     | Some challenge =>
         loading (ctx w') = false
         /\ error (ctx w') = error st
         /\ if Js.truthy (challenge_id challenge) then
              let r :=
                AxiosPost "/coding/hint" (authorizationHeader authToken)
                  [("challenge_id", Js.of_string (challenge_id challenge));
                   ("code", Js.JStr (if Js.truthy currentCode
                                     then Js.show currentCode else ""));
                   ("user_id", Js.of_string (userId st));
                   ("session_id", Js.of_string (sessionId st));
                   ("error_message", Js.JNull)] default_timeout in
              sent w' = sent w ++ [r]
              /\ match server (sent w) r with
                 | Ok data =>
                     toasts w' = toasts w
                     /\ exists text,
                          messages (ctx w') = messages st ++ [hintMessage text]
                 | Fail _ =>
                     toasts w' = toasts w ++ [failed]
                     /\ messages (ctx w') = messages st
                 end
            else
              sent w' = sent w
              /\ toasts w' = toasts w ++ [failed]
              /\ messages (ctx w') = messages st
     end.
Proof.
  cbv zeta. unfold handleRequestHint, rendered.
  destruct (currentCodingChallenge (ctx w)) as [challenge|] eqn:Hc;
    [|split; reflexivity].
  unfold tryFinally, tryCatch, bind, dispatch, modify, toast.
  cbn -[getChallengeHint Js.truthy Js.show reducer].
  rewrite getChallengeHint_run.
  destruct (Js.truthy (challenge_id challenge)) eqn:Hid;
    cbn -[Js.truthy Js.show reducer].
  - destruct (server _ _) as [data|e]; cbn -[Js.truthy Js.show reducer].
    + destruct (Data.hints data) as [[|h hs]|];
        cbn -[Js.truthy Js.show join reducer String.append];
        repeat split; try reflexivity; eexists; reflexivity.
    + repeat split; reflexivity.
  - repeat split; reflexivity.
Qed.

End HintProperties.

(** ** The transcript of a voice turn *)

Section VoiceProperties.

Variable server : list Request -> Request -> Reply.
Variable authToken : option string.
Variable now : Z.
Variables uuid0 uuid : string.
Variable stopRecording : Outcome (option AudioData).
Variable getAudioBase64 : string -> Outcome (option string).
Variable initRecording : Outcome bool.

Ltac monad :=
  unfold rendered, recordResponse, tryFinally, tryCatch, bind, when, ret, throw,
    lift, dispatch, modify, setMessageInput, setIsWaitingForCodingChallenge,
    setShowPermissionHelp.

Ltac simp :=
  cbn -[reducer Js.truthy is_coding_stage startInterview continueInterview
        continueAfterCodingChallenge transcribeAndRespond String.eqb Js.trim
        String.append Js.show Z.eqb transcribing formattedAudioData
        jobRoleFields pretty] in *.

Ltac settle Hr :=
  split; [reflexivity|]; split; [reflexivity|]; rewrite ?Hr.

(** X4: a voice turn ends with the loading flag cleared, and the transcribed
    text never enters the transcript. The recorder decides what happens.
    When it yields no audio (it throws, hands over no blob, or the encoding
    throws or is empty), no request leaves, the transcript is unchanged and
    the error banner is set: to 'Voice processing is not available.' when
    the error thrown is marked so, to 'Failed to process voice input. Please
    try again.' otherwise. When it yields audio, exactly one request leaves:
    a POST to /audio/transcribe with the audio as a data URI, the user id,
    the session id, the sample rate 16000, one channel and the job role, on
    a timeout of 60000; the 'Transcribing audio...' placeholder, still
    marked as loading, is appended and stays: followed by the assistant's
    reply when the server answered with a transcription (the banner is
    cleared), and alone, with the banner set, when the call failed (the
    banner names voice processing at status 501) or the answer carried no
    transcription. *)
Theorem voice_turn_keeps_placeholder (w : World) :
  let w' := fst (handleVoiceRecording server authToken now uuid0 uuid
                   stopRecording getAudioBase64 initRecording true w) in
  let st := ctx w in
  let audio :=
    match stopRecording with
    | Returned (Some {| blob := Some b |}) =>
        match getAudioBase64 b with
        | Returned audioBase64 => audioBase64
        | Thrown _ => None
        end
    | _ => None
    end in
  let thrown :=
    match stopRecording with
    | Returned (Some {| blob := Some b |}) =>
        match getAudioBase64 b with
        | Returned _ => None
        | Thrown e => Some e
        end
    | Returned _ => None
    | Thrown e => Some e
    end in
  let banner (unavailable : bool) :=
    Some (if unavailable then "Voice processing is not available."
          else "Failed to process voice input. Please try again.") in
  let r :=
    AxiosPost "/audio/transcribe" (authorizationHeader authToken)
      ([("audio_data", Js.JStr (formattedAudioData (Js.show audio)));
        ("user_id",
         Js.JStr (if Js.truthy (userId st) then Js.show (userId st)
                  else "anon-" +:+ pretty now));
        ("session_id", Js.of_string (sessionId st));
        ("sample_rate", Js.JNum 16000);
        ("channels", Js.JNum 1)] ++ jobRoleFields (jobRoleData st)) 60000 in
  loading (ctx w') = false
  /\ if Js.truthy audio then
       sent w' = sent w ++ [r]
       /\ match server (sent w) r with
          | Ok data =>
              if Js.truthy (Data.transcription data) then
                messages (ctx w') =
                messages st ++
                [transcribing;
                 Msg.assistant (Data.response data) (Data.tool_calls data)
                   (Data.audio_response_url data)]
                /\ error (ctx w') = None
              else
                messages (ctx w') = messages st ++ [transcribing]
                /\ error (ctx w') = banner false
          | Fail e =>
              messages (ctx w') = messages st ++ [transcribing]
              /\ error (ctx w') =
                   banner (match Err.response e with
                           | Some answer => status answer =? 501
                           | None => false
                           end)
          end
     else
       sent w' = sent w
       /\ messages (ctx w') = messages st
       /\ error (ctx w') =
            banner (match thrown with
                    | Some e => Err.isVoiceUnavailable e
                    | None => false
                    end).
Proof.
  cbv zeta. unfold handleVoiceRecording, rendered.
  monad. simp.
  destruct stopRecording as [[[[b|]]|]|e0]; simp;
    try (split; [reflexivity|]; repeat split; reflexivity).
  destruct (getAudioBase64 b) as [audio|e1]; simp;
    try (split; [reflexivity|]; repeat split; reflexivity).
  destruct (Js.truthy audio) eqn:Haudio; simp;
    try (split; [reflexivity|]; repeat split; reflexivity).
  rewrite transcribeAndRespond_run, Haudio. simp.
  destruct (server _ _) as [data|e] eqn:Hr; simp.
  - destruct (Js.truthy (Data.transcription data)) eqn:Ht; simp.
    + destruct (Js.truthy (Data.interview_stage data)) eqn:Hs; simp.
      * destruct (String.eqb (Js.show (Data.interview_stage data))
                    "coding_challenge"); simp.
        -- destruct (Data.coding_challenge_detail data); simp;
             settle Hr; rewrite ?Ht; cbn [reducer messages error];
             rewrite <- app_assoc; split; reflexivity.
        -- destruct (currentCodingChallenge (ctx w)); simp;
             settle Hr; rewrite ?Ht; cbn [reducer messages error];
             rewrite <- app_assoc; split; reflexivity.
      * settle Hr. rewrite ?Ht. cbn [reducer messages error].
        rewrite <- app_assoc. split; reflexivity.
    + settle Hr. rewrite ?Ht. split; reflexivity.
  - rewrite responseInterceptor_response.
    destruct (Err.response e) as [r|]; simp.
    + destruct (status r =? 501); simp;
        [|destruct (status r =? 422); simp];
        settle Hr; split; reflexivity.
    + settle Hr. split; reflexivity.
Qed.

End VoiceProperties.

(** ** The editor's buttons *)

Section EditorProperties.

Variable fetchServer : list Request -> Request -> FetchReply.
Variable runServer : list Request -> Request -> Run.Reply.
Variable authToken : option string.
Variable JSON_stringify : Js.Json -> string.

Ltac simp :=
  cbn -[String.eqb Js.trim Js.truthy Js.show String.append submitBody runBody
        pretty or_zero js_equals] in *.

(** X5: a submit attempt never throws and leaves the context and the code
    untouched. With blank code it only opens the 'Empty Code' toast. Otherwise
    it ends with the evaluating flag cleared and exactly one toast open: with
    no stored token nothing is sent and no result is shown; with a token one
    request goes to /api/coding/submit and a result is always recorded, the
    server's own when the response is ok ('Evaluation Complete', success
    exactly when all tests passed) and otherwise an evaluation of status
    'error' with a non-empty message and 0 of 0 tests passed ('Submission
    Error'). *)
Theorem submit_attempt_outcome (w : World) :
  let run := handleSubmit fetchServer authToken JSON_stringify w in
  let w' := fst run in
  let ed := editor w in
  snd run = Returned tt
  /\ ctx w' = ctx w
  /\ Editor.code (editor w') = Editor.code ed
  /\ if String.eqb (Js.trim (Editor.code ed)) "" then
       sent w' = sent w
       /\ editor w' = ed
       /\ toasts w' =
            toasts w ++
            [{| toast_title := "Empty Code";
                toast_description :=
                  Some "Please write some code before submitting.";
                toast_status := "warning" |}]
     else
       Editor.isEvaluating (editor w') = false
       /\ if Js.truthy authToken then
            let r :=
              FetchPost "/api/coding/submit" ("Bearer " +:+ Js.show authToken)
                (JSON_stringify (Js.JObj (submitBody (ctx w) ed))) in
            sent w' = sent w ++ [r]
            /\ match fetchServer (sent w) r with
               | FetchResponse true result =>
                   Editor.evaluationResult (editor w') = Some result
                   /\ exists t,
                        toasts w' = [t]
                        /\ toast_title t = "Evaluation Complete"
                        /\ toast_status t =
                             (if default false
                                   (overall_summary result ≫= all_tests_passed)
                              then "success" else "warning")
               | _ =>
                   exists msg t,
                     msg <> ""
                     /\ Editor.evaluationResult (editor w') =
                          Some {| eval_status := Some "error";
                                  eval_detail := None;
                                  error_message := Some msg;
                                  overall_summary :=
                                    Some {| pass_count := Some 0;
                                            fail_count := Some 0;
                                            total_tests := Some 0;
                                            all_tests_passed := Some false |} |}
                     /\ toasts w' = [t]
                     /\ toast_title t = "Submission Error"
                     /\ toast_status t = "error"
               end
          else
            sent w' = sent w
            /\ Editor.evaluationResult (editor w') = None
            /\ toasts w' =
                 [{| toast_title := "Authentication Error";
                     toast_description :=
                       Some "Auth token not found. Please log in.";
                     toast_status := "error" |}].
Proof.
  cbv zeta. unfold handleSubmit, rendered.
  destruct (String.eqb (Js.trim (Editor.code (editor w))) "") eqn:Hc.
  { repeat split; reflexivity. }
  destruct (Js.truthy authToken) eqn:Ht.
  2:{ repeat split; reflexivity. }
  unfold tryFinally, tryCatch, bind, toast, toast_closeAll, modify,
    setIsEvaluating, setEvaluationResult, fetch_post, throw.
  simp.
  assert (Hne : forall m : string,
            (if negb (String.eqb m "") then m else "Submission failed.") <> "").
  { intros m. destruct (String.eqb m "") eqn:E; simpl; [discriminate|].
    now apply String.eqb_neq. }
  destruct (fetchServer _ _) as [e|ok result]; simp.
  - repeat split; try reflexivity.
    eexists _, _. split; [apply Hne|]. repeat split; reflexivity.
  - destruct ok; simp.
    + repeat split; try reflexivity.
      eexists. repeat split; reflexivity.
    + repeat split; try reflexivity.
      eexists _, _. split; [apply Hne|]. repeat split; reflexivity.
Qed.

(** X6: "Run Code" never throws and changes neither the context nor the
    editor's code, challenge or evaluation. With blank code it sends nothing
    and leaves the output as it was. Otherwise it ends with the running flag
    cleared and exactly one toast open: with no stored token nothing is sent
    and both outputs are empty; with a token one request goes to
    /api/coding/run (language, code, input_str, session_id), and the outputs
    shown are the server's stdout and stderr when the response is ok, and an
    empty stdout with a non-empty error text as stderr otherwise. *)
Theorem run_code_outcome (stdin : string) (run : Run.t) (w : World) :
  let called := handleRunCode runServer authToken JSON_stringify stdin run w in
  let w' := fst called in
  ctx w' = ctx w
  /\ editor w' = editor w
  /\ exists run',
       snd called = Returned run'
       /\ if String.eqb (Js.trim (Editor.code (editor w))) "" then
            run' = run /\ sent w' = sent w
          else
            Run.isRunningCode run' = false
            /\ length (toasts w') = 1%nat
            /\ if Js.truthy authToken then
                 let r :=
                   FetchPost "/api/coding/run" ("Bearer " +:+ Js.show authToken)
                     (JSON_stringify
                        (Js.JObj (runBody (ctx w) (editor w) stdin))) in
                 sent w' = sent w ++ [r]
                 /\ match runServer (sent w) r with
                    | Run.Response true _ result =>
                        Run.shown_stdout run' = Run.stdout result
                        /\ Run.shown_stderr run' = Run.stderr result
                    | _ =>
                        Run.shown_stdout run' = Some ""
                        /\ exists msg,
                             Run.shown_stderr run' = Some msg /\ msg <> ""
                    end
               else
                 sent w' = sent w
                 /\ Run.shown_stdout run' = Some ""
                 /\ Run.shown_stderr run' = Some "".
Proof.
  cbv zeta. unfold handleRunCode, rendered.
  destruct (String.eqb (Js.trim (Editor.code (editor w))) "") eqn:Hc.
  { split; [reflexivity|]. split; [reflexivity|].
    eexists. split; [reflexivity|]. split; reflexivity. }
  destruct (Js.truthy authToken) eqn:Ht.
  2:{ split; [reflexivity|]. split; [reflexivity|].
      eexists. split; [reflexivity|]. repeat split; reflexivity. }
  unfold tryCatch, bind, toast, toast_closeAll, modify, run_post, throw, ret.
  simp.
  assert (Hne : forall m : string,
            (if negb (String.eqb m "") then m
             else "An unexpected error occurred.") <> "").
  { intros m. destruct (String.eqb m "") eqn:E; simpl; [discriminate|].
    now apply String.eqb_neq. }
  destruct (runServer _ _) as [e|ok http_status result]; simp.
  - split; [reflexivity|]. split; [reflexivity|].
    eexists. split; [reflexivity|]. simp. repeat split; try reflexivity.
    eexists. split; [reflexivity|]. apply Hne.
  - destruct ok; simp.
    + destruct (js_equals (Run.status result) "success"); simp;
        (split; [reflexivity|]; split; [reflexivity|];
         eexists; split; [reflexivity|]; repeat split; reflexivity).
    + split; [reflexivity|]. split; [reflexivity|].
      eexists. split; [reflexivity|]. simp. repeat split; try reflexivity.
      eexists. split; [reflexivity|]. apply Hne.
Qed.

End EditorProperties.

(** ** The interview page *)

Section PageProperties.

Variable server : list Request -> Request -> Reply.
Variable authToken : option string.
Variables uuid0 uuid : string.
Variable JSON_stringify : Js.Json -> string.

Ltac monad :=
  unfold rendered, recordResponse, tryFinally, tryCatch, bind, when, ret, throw,
    lift, dispatch, modify, setMessageInput, setIsWaitingForCodingChallenge,
    setShowPermissionHelp.

Ltac simp :=
  cbn -[reducer Js.truthy is_coding_stage startInterview continueInterview
        continueAfterCodingChallenge transcribeAndRespond String.eqb Js.trim
        String.append Js.show Z.eqb mainPanel] in *.

(** X7: what the page shows after a chat message that the server answers
    with a coding stage ('coding_challenge' or 'coding_challenge_waiting').
    Sent with the chat's waiting flag clear and a challenge loaded, the page
    keeps showing the editor beside the chat, whether or not the answer
    carries a challenge. Sent with the waiting flag set, the message clears
    the current challenge, and when the answer carries no
    codingChallengeDetail the page shows only 'Loading coding challenge
    details...', neither the editor nor the chat. *)
Theorem panel_after_chat_message (data : Data.t) (w : World) :
  String.eqb (Js.trim (messageInput (chat w))) "" = false ->
  Js.truthy (sessionId (ctx w)) = true ->
  Js.truthy (userId (ctx w)) = true ->
  (forall h r, server h r = Ok data) ->
  Js.truthy (Data.interview_stage data) = true ->
  is_coding_stage (Js.show (Data.interview_stage data)) = true ->
  let w' := fst (handleSendMessage server authToken uuid0 uuid w) in
  (isWaitingForCodingChallenge (chat w) = false ->
   is_some (currentCodingChallenge (ctx w)) = true ->
   mainPanel false (ctx w') = EditorBesideChat)
  /\ (isWaitingForCodingChallenge (chat w) = true ->
      Data.codingChallengeDetail data = None ->
      mainPanel false (ctx w') = LoadingChallenge).
Proof.
  intros Hb Hsid Hu Hok Hs Hc. cbv zeta.
  unfold handleSendMessage, rendered. rewrite Hb, Hsid. split.
  - intros Hw Hcc. rewrite Hw.
    monad. simp. rewrite continueInterview_run. simp. rewrite Hsid, Hu. simp.
    rewrite Hok. simp.
    destruct (currentCodingChallenge (ctx w)) as [c0|] eqn:Hc0; [|discriminate].
    destruct (Js.truthy (Data.response data)); simp; rewrite Hs; simp;
      rewrite Hc; simp;
      destruct (Data.coding_challenge_detail data); simp;
      unfold mainPanel; cbn [reducer interviewStage currentCodingChallenge];
      rewrite ?Hc0, Hc; reflexivity.
  - intros Hw Hd. rewrite Hw.
    monad. simp. rewrite continueAfterCodingChallenge_run. simp.
    rewrite Hsid, Hu. simp. rewrite Hok. simp.
    destruct (Js.truthy (Data.response data)); simp; rewrite Hs; simp;
      rewrite Hc, Hd; simp;
      unfold mainPanel; cbn [reducer interviewStage currentCodingChallenge];
      rewrite Hc; reflexivity.
Qed.

(** X8: after a "Return to Interviewer" that the server accepts, the client
    stage is 'FEEDBACK': the page shows the chat alone (the editor is gone,
    although the current challenge is still set), the stage badge falls to
    the default colour 'gray' (its 'green' is for 'feedback' in lower case),
    and the chat's effect leaves the waiting flag clear. *)
Theorem return_to_interviewer_closes_editor (w : World) :
  Js.truthy (sessionId (ctx w)) = true ->
  Js.truthy (userId (ctx w)) = true ->
  (forall h r, exists data, server h r = Ok data) ->
  let w' := fst (handleReturnToInterviewer server authToken uuid0 uuid
                   JSON_stringify w) in
  interviewStage (ctx w') = "FEEDBACK"
  /\ mainPanel false (ctx w') = ChatOnly
  /\ getStageBadgeColor (interviewStage (ctx w')) = "gray"
  /\ currentCodingChallenge (ctx w') = currentCodingChallenge (ctx w)
  /\ isWaitingForCodingChallenge (chat (fst (waitingEffect w'))) = false.
Proof.
  intros Hsid Hu Hok. cbv zeta.
  rewrite handleReturnToInterviewer_run by assumption. cbv zeta.
  match goal with |- context [server ?h ?r] =>
    destruct (Hok h r) as [data ->] end.
  rewrite waitingEffect_run.
  repeat split; reflexivity.
Qed.

Lemma strict_neq_refl a : strict_neq a a = false.
Proof. destruct a; simpl; [|reflexivity]. now rewrite String.eqb_refl. Qed.

(** X9: opening /interview/{id} adopts the id of the URL as the session id
    without sending a request or loading any message, and running the effect
    again changes nothing; the next chat message (user id set, waiting flag
    clear) continues that session: it goes to /interview/{id}. *)
Theorem resumed_session_is_continued (urlSessionId : option string) (w : World) :
  Js.truthy urlSessionId = true ->
  let w1 := fst (sessionEffect uuid0 uuid urlSessionId w) in
  sessionId (ctx w1) = urlSessionId
  /\ messages (ctx w1) = messages (ctx w)
  /\ sent w1 = sent w
  /\ sessionEffect uuid0 uuid urlSessionId w1 = (w1, Returned tt)
  /\ (String.eqb (Js.trim (messageInput (chat w))) "" = false ->
      Js.truthy (userId (ctx w)) = true ->
      isWaitingForCodingChallenge (chat w) = false ->
      sent (fst (handleSendMessage server authToken uuid0 uuid w1)) =
      sent w ++
      [AxiosPost ("/interview/" +:+ Js.show urlSessionId)
         (authorizationHeader authToken)
         ([("message", Js.JStr (messageInput (chat w)));
           ("user_id", Js.of_string (userId (ctx w)))]
          ++ jobRoleFields (jobRoleData (ctx w))) default_timeout]).
Proof.
  intros Hurl. cbv zeta.
  assert (Hrun : exists w1,
            sessionEffect uuid0 uuid urlSessionId w = (w1, Returned tt)
            /\ sessionId (ctx w1) = urlSessionId
            /\ messages (ctx w1) = messages (ctx w)
            /\ userId (ctx w1) = userId (ctx w)
            /\ jobRoleData (ctx w1) = jobRoleData (ctx w)
            /\ chat w1 = chat w /\ sent w1 = sent w).
  { unfold sessionEffect, rendered. rewrite Hurl.
    destruct (strict_neq urlSessionId (sessionId (ctx w))) eqn:Hne.
    - eexists. split; [reflexivity|]. repeat split; reflexivity.
    - exists w. split; [reflexivity|]. repeat split; try reflexivity.
      destruct urlSessionId as [x|]; [|discriminate].
      destruct (sessionId (ctx w)) as [y|]; [|discriminate].
      simpl in Hne. apply negb_false_iff, String.eqb_eq in Hne. now subst. }
  destruct Hrun as (w1 & Hrun & Hid & Hmsg & Huid & Hjob & Hchat & Hsent).
  rewrite Hrun. cbn [fst].
  split; [exact Hid|]. split; [exact Hmsg|]. split; [exact Hsent|]. split.
  - unfold sessionEffect, rendered. rewrite Hid, strict_neq_refl, andb_false_r.
    reflexivity.
  - intros Hb Hu Hw.
    pose proof (handleSendMessage_routes server authToken uuid0 uuid w1) as H.
    cbv zeta in H. rewrite Hchat, Hid, Huid, Hjob, Hsent, Hurl, Hu, Hw in H.
    destruct (H Hb) as [_ H']. exact H'.
Qed.

(** X10: after "End Interview" the context is the initial state with a new
    user id, and the next message starts a new interview: it goes to
    /interview with that new user id and without job role data. *)
Theorem ended_interview_starts_afresh (text : string) (w : World) :
  String.eqb (Js.trim text) "" = false ->
  let ended := fst (handleEndInterview uuid0 uuid w) in
  ctx ended = reducer uuid0 uuid (initialState uuid0) RESET
  /\ sent (fst (handleSendMessage server authToken uuid0 uuid
                  (fst (setMessageInput text ended)))) =
     sent w ++
     [AxiosPost "/interview" (authorizationHeader authToken)
        [("message", Js.JStr text); ("user_id", Js.JStr ("user-" +:+ uuid))]
        default_timeout].
Proof.
  intros Hb. cbv zeta. split; [reflexivity|].
  match goal with |- context [handleSendMessage _ _ _ _ ?v] =>
    pose proof (handleSendMessage_routes server authToken uuid0 uuid v Hb) as H
  end.
  cbv zeta in H. destruct H as [H _]. exact H.
Qed.

(** X11: the role picked in the selector and the role sent with the first
    message. Picking a listed role records it in the context, and the first
    message carries it. Picking 'custom' selects the 'Custom Role' object in
    the selector, so that "Start Interview" goes ahead, but records nothing
    in the context: the first message carries the job role data the context
    held before (none on a first visit). Start Interview closes the
    selector exactly when a role is selected. *)
Theorem selected_role_reaches_server (s : Selector.t) (roleId text : string)
    (w : World) :
  String.eqb (Js.trim text) "" = false ->
  Js.truthy (sessionId (ctx w)) = false ->
  let found :=
    List.find (fun role => js_equals (role_name role) roleId)
      (Selector.jobRoles s) in
  let picked :=
    Selector.handleRoleChange (handleRoleSelect uuid0 uuid) roleId s w in
  let s' :=
    {| Selector.jobRoles := Selector.jobRoles s;
       Selector.selectedRole :=
         if String.eqb roleId "custom" then Some Selector.customRole
         else found;
       Selector.customDescription :=
         if String.eqb roleId "custom" then Selector.customDescription s
         else "" |} in
  let sentRole :=
    if String.eqb roleId "custom" then jobRoleData (ctx w)
    else match found with
         | Some r => Some r
         | None => jobRoleData (ctx w)
         end in
  snd picked = Returned s'
  /\ jobRoleData (ctx (fst picked)) = sentRole
  /\ snd (Selector.handleStartInterview (fun _ => handleStartInterview) s'
            true (fst picked))
     = Returned (negb (is_some (Selector.selectedRole s')))
  /\ sent (fst (handleSendMessage server authToken uuid0 uuid
                  (fst (setMessageInput text (fst picked))))) =
     sent w ++
     [AxiosPost "/interview" (authorizationHeader authToken)
        ([("message", Js.JStr text);
          ("user_id", Js.of_string (userId (ctx w)))]
         ++ jobRoleFields sentRole) default_timeout].
Proof.
  intros Hb Hsid. cbv zeta.
  assert (Hsend : forall v,
            String.eqb (Js.trim (messageInput (chat v))) "" = false ->
            Js.truthy (sessionId (ctx v)) = false ->
            sent (fst (handleSendMessage server authToken uuid0 uuid v)) =
            sent v ++
            [AxiosPost "/interview" (authorizationHeader authToken)
               ([("message", Js.JStr (messageInput (chat v)));
                 ("user_id", Js.of_string (userId (ctx v)))]
                ++ jobRoleFields (jobRoleData (ctx v))) default_timeout]).
  { intros v Hv Hs.
    pose proof (handleSendMessage_routes server authToken uuid0 uuid v Hv) as H.
    cbv zeta in H. rewrite Hs in H. exact (proj1 H). }
  unfold Selector.handleRoleChange.
  destruct (String.eqb roleId "custom") eqn:Hcustom.
  - split; [reflexivity|]. split; [reflexivity|]. split; [reflexivity|].
    apply (Hsend (fst (setMessageInput text w))); assumption.
  - unfold bind, when, ret, handleRoleSelect, dispatch, modify.
    destruct (find _ _) as [r|] eqn:Hfind; cbn [is_some fst snd].
    + split; [reflexivity|]. split; [reflexivity|]. split; [reflexivity|].
      match goal with |- context [handleSendMessage _ _ _ _ ?v] =>
        apply (Hsend v) end; assumption.
    + split; [reflexivity|]. split; [reflexivity|]. split; [reflexivity|].
      apply (Hsend (fst (setMessageInput text w))); assumption.
Qed.

End PageProperties.

(* The handler is run on the settled page, and on that page with the waiting
   flag set by hand: the page's own effects leave the flag clear. *)
Lemma panel_after_chat_message_witness :
  mainPanel false (ctx settledChat) = EditorBesideChat
  /\ mainPanel false
       (ctx (fst (handleSendMessage patient None "u0" "u1" settledChat)))
     = EditorBesideChat
  /\ mainPanel false
       (ctx (fst (handleSendMessage patient None "u0" "u1"
                    (fst (setIsWaitingForCodingChallenge true settledChat)))))
     = LoadingChallenge.
Proof.
  destruct (panel_after_chat_message patient None "u0" "u1" stillWaiting
              settledChat eq_refl eq_refl eq_refl (fun _ _ => eq_refl)
              eq_refl eq_refl) as [H1 _].
  destruct (panel_after_chat_message patient None "u0" "u1" stillWaiting
              (fst (setIsWaitingForCodingChallenge true settledChat))
              eq_refl eq_refl eq_refl (fun _ _ => eq_refl)
              eq_refl eq_refl) as [_ H2].
  split; [reflexivity|]. split; [exact (H1 eq_refl eq_refl)|].
  exact (H2 eq_refl eq_refl).
Defined.

Lemma return_to_interviewer_closes_editor_witness :
  Js.truthy (sessionId (ctx submitted)) = true
  /\ Js.truthy (userId (ctx submitted)) = true
  /\ mainPanel false (ctx submitted) = EditorBesideChat
  /\ interviewStage
       (ctx (fst (handleReturnToInterviewer stageController (Some "token")
                    "u0" "u1" writtenKeys submitted))) = "FEEDBACK"
  /\ mainPanel false
       (ctx (fst (handleReturnToInterviewer stageController (Some "token")
                    "u0" "u1" writtenKeys submitted))) = ChatOnly
  /\ getStageBadgeColor
       (interviewStage
          (ctx (fst (handleReturnToInterviewer stageController (Some "token")
                       "u0" "u1" writtenKeys submitted)))) = "gray".
Proof.
  assert (Hok : forall h r, exists data, stageController h r = Ok data).
  { intros h r. unfold stageController.
    destruct (String.eqb _ _); eexists; reflexivity. }
  destruct (return_to_interviewer_closes_editor stageController (Some "token")
              "u0" "u1" writtenKeys submitted eq_refl eq_refl Hok)
    as (H0 & H1 & H2 & _).
  split; [reflexivity|]. split; [reflexivity|]. split; [reflexivity|].
  split; [exact H0|]. split; [exact H1 | exact H2].
Defined.

Lemma resumed_session_is_continued_witness :
  Js.truthy (Some "s7") = true
  /\ sessionId (ctx (fst (sessionEffect "u0" "u1" (Some "s7") firstVisit)))
     = Some "s7"
  /\ sent (fst (handleSendMessage greeter None "u0" "u1"
                  (fst (sessionEffect "u0" "u1" (Some "s7") firstVisit)))) =
     [AxiosPost "/interview/s7" None
        [("message", Js.JStr "Hello"); ("user_id", Js.JStr "user-u0")] 120000].
Proof.
  destruct (resumed_session_is_continued greeter None "u0" "u1" (Some "s7")
              firstVisit eq_refl) as (H1 & _ & _ & _ & H5).
  split; [reflexivity|]. split; [exact H1|].
  exact (H5 eq_refl eq_refl eq_refl).
Defined.

Lemma ended_interview_starts_afresh_witness :
  String.eqb (Js.trim "Hello again") "" = false
  /\ sessionId (ctx settledChat) = Some "s1"
  /\ sent (fst (handleSendMessage greeter None "u0" "u9"
                  (fst (setMessageInput "Hello again"
                          (fst (handleEndInterview "u0" "u9" settledChat)))))) =
     [AxiosPost "/interview" None
        [("message", Js.JStr "Hello again"); ("user_id", Js.JStr "user-u9")]
        120000].
Proof.
  split; [reflexivity|]. split; [reflexivity|].
  exact (proj2 (ended_interview_starts_afresh greeter None "u0" "u9"
                  "Hello again" settledChat eq_refl)).
Defined.

Lemma selected_role_reaches_server_witness :
  String.eqb (Js.trim "Hello") "" = false
  /\ Js.truthy (sessionId (ctx firstVisit)) = false
  /\ snd (Selector.handleRoleChange (handleRoleSelect "u0" "u1") "custom"
            roleList firstVisit)
     = Returned {| Selector.jobRoles := [backend];
                   Selector.selectedRole := Some Selector.customRole;
                   Selector.customDescription := "" |}
  /\ sent (fst (handleSendMessage greeter None "u0" "u1"
                  (fst (setMessageInput "Hello"
                          (fst (Selector.handleRoleChange
                                  (handleRoleSelect "u0" "u1") "custom"
                                  roleList firstVisit)))))) =
     [AxiosPost "/interview" None
        [("message", Js.JStr "Hello"); ("user_id", Js.JStr "user-u0")] 120000].
Proof.
  destruct (selected_role_reaches_server greeter None "u0" "u1" roleList
              "custom" "Hello" firstVisit eq_refl eq_refl)
    as (H1 & _ & _ & H4).
  split; [reflexivity|]. split; [reflexivity|].
  split; [exact H1 | exact H4].
Defined.

(** X12: the voice check never sets the error banner: the availability call
    swallows its own failure and answers false, so the effect's catch block
    is never entered. The value shown is true exactly when the health answer
    has voice_processing 'available'; voice mode stays on only if it was on
    and voice is available, the 'Voice Mode Disabled' toast being opened
    exactly when it was on and voice is not available. *)
Theorem voice_check_outcome (uuid0 uuid : string)
    (getHealth : Outcome (option string)) (w : World) :
  let run := checkVoice uuid0 uuid getHealth w in
  let available :=
    match getHealth with
    | Returned voice_processing => js_equals voice_processing "available"
    | Thrown _ => false
    end in
  checkVoiceAvailability getHealth w = (w, Returned available)
  /\ snd run = Returned available
  /\ voiceMode (ctx (fst run)) = voiceMode (ctx w) && available
  /\ error (ctx (fst run)) = error (ctx w)
  /\ toasts (fst run) =
       toasts w ++
       (if voiceMode (ctx w) && negb available
        then [{| toast_title := "Voice Mode Disabled";
                 toast_description :=
                   Some "Voice processing is not available on the server.";
                 toast_status := "warning" |}]
        else []).
Proof.
  cbv zeta. unfold checkVoice, checkVoiceAvailability, rendered, tryCatch, bind,
    lift, ret, when, dispatch, modify, toast.
  destruct getHealth as [v|e]; cbn -[js_equals].
  - destruct (js_equals v "available"); cbn.
    + rewrite andb_true_r, andb_false_r, app_nil_r. repeat split; reflexivity.
    + destruct (voiceMode (ctx w)) eqn:Hv; cbn;
        rewrite ?app_nil_r; repeat split; try reflexivity; now rewrite Hv.
  - destruct (voiceMode (ctx w)) eqn:Hv; cbn;
      rewrite ?app_nil_r; repeat split; try reflexivity; now rewrite Hv.
Qed.

(** ** Actions on different keys *)

(** X13: two actions that override no common key of the state commute: the
    state after both does not depend on the order in which the reducer
    handles them. *)
Theorem independent_actions_commute (uuid0 fresh : string) (st : State)
    (a b : Action) :
  independent a b = true ->
  reducer uuid0 fresh (reducer uuid0 fresh st a) b
  = reducer uuid0 fresh (reducer uuid0 fresh st b) a.
Proof.
  destruct a, b; simpl; intros H; try discriminate H; reflexivity.
Qed.

Lemma independent_actions_commute_witness :
  independent (SET_LOADING false) (ADD_MESSAGE (Msg.user "Hello")) = true
  /\ reducer "u0" "u1"
       (reducer "u0" "u1" inSession (SET_LOADING false))
       (ADD_MESSAGE (Msg.user "Hello"))
     = reducer "u0" "u1"
         (reducer "u0" "u1" inSession (ADD_MESSAGE (Msg.user "Hello")))
         (SET_LOADING false).
Proof.
  split; [reflexivity|].
  apply (independent_actions_commute "u0" "u1" inSession). reflexivity.
Defined.

(** ** The results tab *)

Section DefaultIndex.

Local Open Scope nat_scope.

Lemma reduceFrom_app index acc l :
  reduceFrom index acc l = acc ++ reduceFrom index [] l.
Proof.
  revert index acc. induction l as [|tc rest IH]; intros index acc; simpl.
  - now rewrite app_nil_r.
  - destruct (passed tc) as [[]|]; try apply IH.
    rewrite (IH (S index) (acc ++ [index])), (IH (S index) [index]).
    now rewrite <- app_assoc.
Qed.

Lemma reduceFrom_elem index l i :
  i ∈ reduceFrom index [] l <->
  exists j tc, i = index + j /\ l !! j = Some tc /\ passed tc = Some false.
Proof.
  revert index. induction l as [|tc rest IH]; intros index; simpl.
  - split; [intros H; inversion H|]. intros (j & tc & _ & H & _).
    rewrite lookup_nil in H. discriminate.
  - rewrite reduceFrom_app, elem_of_app, IH. split.
    + intros [H|(j & tc' & -> & Hl & Hp)].
      * destruct (passed tc) as [[]|] eqn:Hp; try (inversion H; fail).
        apply list_elem_of_singleton in H. subst i.
        exists 0, tc. rewrite Nat.add_0_r. auto.
      * exists (S j), tc'. split; [lia|]. auto.
    + intros ([|j] & tc' & -> & Hl & Hp).
      * simpl in Hl. injection Hl as <-. rewrite Hp. left.
        rewrite Nat.add_0_r. apply list_elem_of_singleton. reflexivity.
      * right. exists j, tc'. split; [lia|]. auto.
Qed.

Lemma reduceFrom_sorted index l :
  StronglySorted lt (reduceFrom index [] l).
Proof.
  revert index. induction l as [|tc rest IH]; intros index; simpl.
  - constructor.
  - rewrite reduceFrom_app.
    assert (Hgt : Forall (lt index) (reduceFrom (S index) [] rest)).
    { apply Forall_forall. intros i Hi.
      apply reduceFrom_elem in Hi as (j & _ & -> & _). lia. }
    destruct (passed tc) as [[]|]; simpl; try apply IH.
    constructor; [apply IH | exact Hgt].
Qed.

(** X14: the items of the accordion of detailed test cases that are open by
    default are exactly the positions of the test results whose passed is
    false (a missing passed does not count), listed in increasing order
    without repetition. *)
Theorem failed_tests_open_by_default (test_results : list TestResult) :
  (forall i,
     i ∈ defaultIndex test_results <->
     exists tc, test_results !! i = Some tc /\ passed tc = Some false)
  /\ StronglySorted lt (defaultIndex test_results)
  /\ length (defaultIndex test_results) <= length test_results.
Proof.
  unfold defaultIndex. split; [|split].
  - intros i. rewrite reduceFrom_elem. split.
    + intros (j & tc & -> & H). exists tc. exact H.
    + intros (tc & H). exists i, tc. auto.
  - apply reduceFrom_sorted.
  - assert (H : forall index l, length (reduceFrom index [] l) <= length l).
    { intros index l. revert index.
      induction l as [|tc rest IH]; intros index; simpl; [lia|].
      rewrite reduceFrom_app, length_app. specialize (IH (S index)).
      destruct (passed tc) as [[]|]; simpl; lia. }
    apply H.
Qed.

End DefaultIndex.

(** ** Authentication *)

Section AuthProperties.

Variable decodeJwt : string -> option Jwt.payload.
Variable authServer : string -> string -> AuthReply.
Variable fetchServer : list Request -> Request -> FetchReply.
Variable JSON_stringify : Js.Json -> string.

(** X15: a login with a non-empty token and the user data of the login page
    passes the protected route at once, whether or not the token can be
    decoded; after a reload of the page (a new provider mounted on local
    storage) the route is passed exactly when the token can be decoded, and
    a token that cannot is removed from local storage. *)
Theorem reload_keeps_login_iff_token_decodes (newToken : string)
    (pageUser : Auth.User) (s : Auth.t) :
  Js.truthy (Some newToken) = true ->
  let signedIn := Auth.login decodeJwt newToken (Some pageUser) s in
  let reloaded :=
    Auth.attemptAutoLogin decodeJwt (Auth.mount (Auth.storage signedIn)) in
  ProtectedRoute signedIn =
    (if Auth.isLoading s then Spinner else Children)
  /\ ProtectedRoute reloaded =
       (if is_some (decodeJwt newToken) then Children else NavigateToLogin)
  /\ Auth.storage reloaded =
       (if is_some (decodeJwt newToken) then Some newToken else None).
Proof.
  intros Ht. cbv zeta. unfold ProtectedRoute, Auth.attemptAutoLogin, Auth.mount,
    Auth.login.
  cbn -[Js.truthy]. rewrite Ht. cbn -[Js.truthy].
  destruct (decodeJwt newToken) as [p|]; cbn -[Js.truthy]; rewrite ?Ht;
    destruct (Auth.isLoading s); repeat split; reflexivity.
Qed.

(** X16: after a logout the protected route shows the login page (the
    spinner while the provider is still loading), also after a reload; the
    token is gone from local storage, so that requests of the service layer
    carry no Authorization header and the editor's submit sends nothing. *)
Theorem logout_locks_out (s : Auth.t) (w : World) :
  let s' := Auth.logout s in
  ProtectedRoute s' = (if Auth.isLoading s then Spinner else NavigateToLogin)
  /\ authorizationHeader (Auth.storage s') = None
  /\ sent (fst (handleSubmit fetchServer (Auth.storage s') JSON_stringify w))
     = sent w
  /\ ProtectedRoute
       (Auth.attemptAutoLogin decodeJwt (Auth.mount (Auth.storage s')))
     = NavigateToLogin.
Proof.
  cbv zeta. split; [|split; [|split]]; try reflexivity.
  rewrite handleSubmit_requests. simpl. now rewrite orb_true_r.
Qed.

(** X17: the login form always ends with its loading flag cleared. When the
    server answers with a non-empty access token, the token is stored, a
    user is set, the error text is empty, the page navigates to where it
    came from and the protected route is passed (once the provider has
    loaded). Otherwise the authentication state is untouched, the page does
    not navigate and the error text is not empty: the server's detail, or
    'Login failed. Please check your credentials or network.', or 'Login
    failed: No access token received from server.'. *)
Theorem login_page_outcome (from : string) (page : Login.t) (auth : Auth.t) :
  let result := Login.handleSubmit decodeJwt authServer from page auth in
  let page' := fst result in
  let auth' := snd result in
  Login.isLoading page' = false
  /\ match authServer (Login.email page) (Login.password page) with
     | AuthOk access_token =>
         if Js.truthy access_token then
           Login.error page' = ""
           /\ Login.navigated page' = Some from
           /\ Auth.storage auth' = access_token
           /\ Auth.token auth' = access_token
           /\ is_some (Auth.user auth') = true
           /\ ProtectedRoute auth' =
                (if Auth.isLoading auth then Spinner else Children)
         else
           Login.error page' =
             "Login failed: No access token received from server."
           /\ Login.navigated page' = Login.navigated page
           /\ auth' = auth
     | AuthFail detail =>
         Login.error page' =
           (if Js.truthy detail then Js.show detail
            else "Login failed. Please check your credentials or network.")
         /\ Login.error page' <> ""
         /\ Login.navigated page' = Login.navigated page
         /\ auth' = auth
     end.
Proof.
  cbv zeta. unfold Login.handleSubmit, Login.loginUser.
  destruct (authServer _ _) as [tok|detail].
  - destruct (Js.truthy tok) eqn:Ht; cbn -[Js.truthy Js.show].
    + split; [reflexivity|]. split; [reflexivity|]. split; [reflexivity|].
      rewrite <- (truthy_Some tok Ht).
      split; [reflexivity|]. split; [reflexivity|]. split.
      * unfold Auth.login. destruct (decodeJwt _); reflexivity.
      * unfold ProtectedRoute, Auth.login. cbn -[Js.truthy Js.show].
        rewrite <- (truthy_Some tok Ht), Ht.
        destruct (Auth.isLoading auth); [reflexivity|].
        destruct (decodeJwt _); reflexivity.
    + repeat split; reflexivity.
  - assert (Hne : (if Js.truthy detail then Js.show detail
                   else "Login failed. Please check your credentials or network.")
                  <> "").
    { destruct (Js.truthy detail) eqn:Hd; [|discriminate].
      now apply truthy_show. }
    cbn -[Js.truthy Js.show String.eqb].
    destruct (String.eqb _ "") eqn:E.
    + apply String.eqb_eq in E. contradiction.
    + cbn -[Js.truthy Js.show]. repeat split; try reflexivity. exact Hne.
Qed.

End AuthProperties.

Lemma reload_keeps_login_iff_token_decodes_witness :
  Js.truthy (Some "opaque-token") = true
  /\ ProtectedRoute
       (Auth.login sampleDecoder "opaque-token"
          (Some {| Auth.id := None; Auth.email := Some "a@b.c" |}) signedOut)
     = Children
  /\ ProtectedRoute
       (Auth.attemptAutoLogin sampleDecoder
          (Auth.mount
             (Auth.storage
                (Auth.login sampleDecoder "opaque-token"
                   (Some {| Auth.id := None; Auth.email := Some "a@b.c" |})
                   signedOut))))
     = NavigateToLogin.
Proof.
  split; [reflexivity|].
  destruct (reload_keeps_login_iff_token_decodes sampleDecoder "opaque-token"
              {| Auth.id := None; Auth.email := Some "a@b.c" |} signedOut
              eq_refl) as (H1 & H2 & _).
  split; [exact H1 | exact H2].
Defined.

(** ** One request per call *)

Section SingleShotProperties.

Variable server : list Request -> Request -> Reply.
Variable authToken : option string.
Variable now : Z.

Lemma enhancedError_message error customMessage :
  Err.message (enhancedError error customMessage) <> "".
Proof. apply apiErrorMessage_not_empty. Qed.

Ltac refused :=
  left; split; [reflexivity|]; eexists; split; [reflexivity|];
  apply enhancedError_message.

Ltac answered :=
  right; eexists; split; [reflexivity|];
  match goal with
  | |- context [server ?h ?r] =>
      destruct (server h r) as [data|e] eqn:Hr; cbn [snd]
  end;
  [eexists; reflexivity | apply enhancedError_message].

(** X18: every call of the service layer is single-shot. startInterview,
    continueInterview, continueAfterCodingChallenge, submitChallengeCode,
    getChallengeHint and transcribeAndRespond each either throw before any
    request (a missing session id, user id, challenge id, code or audio) or
    send exactly one request, with no retry; they change nothing of the
    page, and every error they throw carries a non-empty message. *)
Theorem service_calls_are_single_shot (message : string)
    (userId sessionId challengeId code errorMessage audio : option string)
    (jobRole : option JobRole) (completed : bool) :
  SingleShot server (startInterview server authToken message userId jobRole)
  /\ SingleShot server
       (continueInterview server authToken message sessionId userId jobRole)
  /\ SingleShot server
       (continueAfterCodingChallenge server authToken message sessionId userId
          completed)
  /\ SingleShot server
       (submitChallengeCode server authToken challengeId code userId sessionId)
  /\ SingleShot server
       (getChallengeHint server authToken challengeId code userId sessionId
          errorMessage)
  /\ SingleShot server
       (transcribeAndRespond server authToken now audio userId sessionId
          jobRole).
Proof.
  unfold SingleShot. repeat split; intros w.
  - rewrite startInterview_run. cbv zeta. cbn [fst snd]. answered.
  - rewrite continueInterview_run.
    destruct (negb (Js.truthy sessionId)); [refused|].
    destruct (negb (Js.truthy userId)); [refused|].
    cbv zeta. cbn [fst snd]. answered.
  - rewrite continueAfterCodingChallenge_run.
    destruct (negb (Js.truthy sessionId)); [refused|].
    destruct (negb (Js.truthy userId)); [refused|].
    cbv zeta. cbn [fst snd]. answered.
  - rewrite submitChallengeCode_run.
    destruct (negb (Js.truthy challengeId)); [refused|].
    destruct (code_missing code); [refused|].
    cbv zeta. cbn [fst snd]. answered.
  - rewrite getChallengeHint_run.
    destruct (negb (Js.truthy challengeId)); [refused|].
    cbv zeta. cbn [fst snd]. answered.
  - rewrite transcribeAndRespond_run.
    destruct (negb (Js.truthy audio)); [refused|].
    cbv zeta. cbn [fst snd]. right. eexists. split; [reflexivity|].
    match goal with
    | |- context [server ?h ?r] =>
        destruct (server h r) as [data|e] eqn:Hr
    end.
    + destruct (negb (Js.truthy (Data.transcription data)));
        [apply enhancedError_message | eexists; reflexivity].
    + cbv zeta. destruct (Err.response (responseInterceptor e)) as [r|];
        [|apply enhancedError_message].
      destruct (status r =? 501); [discriminate|].
      destruct (status r =? 422); [discriminate|].
      apply enhancedError_message.
Qed.

End SingleShotProperties.
